(** * Verification of the tool-augmented generation loop of the RAG chatbot

    The development embeds [backend/ai_generator.py] (class [AIGenerator])
    as monadic Rocq functions and proves the properties its specification
    states about the bounded tool round loop.  The filtered vector index
    ([backend/vector_store.py]) is modelled in module [VectorStore]. *)

From Stdlib Require Import String Ascii List Bool Arith ZArith Lia.
Import ListNotations.
Local Open Scope string_scope.
Local Open Scope list_scope.

(** ** Python strings

    A string is the sequence of the bytes of its UTF-8 encoding; [lower]
    is [str.lower] on the ASCII letters and leaves the other bytes as they
    are.  The letters of the failure marker are ASCII, and the only
    character outside ASCII whose lower case holds one of them (U+0130,
    which becomes [i] and a combining dot) cannot stand inside an
    occurrence of the marker, so the test [marker in s.lower()] has the
    same value on the encoding as in Python. *)

Definition lower_ascii (c : ascii) : ascii :=
  let n := nat_of_ascii c in
  if ((65 <=? n) && (n <=? 90))%nat then ascii_of_nat (n + 32) else c.

Fixpoint lower (s : string) : string :=
  match s with
  | EmptyString => EmptyString
  | String c s' => String (lower_ascii c) (lower s')
  end.

(** [startswith p s] is [s.startswith(p)]. *)
Fixpoint startswith (p s : string) : bool :=
  match p, s with
  | EmptyString, _ => true
  | String a p', String b s' => Ascii.eqb a b && startswith p' s'
  | String _ _, EmptyString => false
  end.

(** [str_in sub s] is the Python expression [sub in s]. *)
Fixpoint str_in (sub s : string) : bool :=
  startswith sub s ||
  match s with
  | EmptyString => false
  | String _ s' => str_in sub s'
  end.

(** The newline character of the f-strings. *)
Definition nl : string := String "010"%char EmptyString.

(** ** Python truthiness ([if x:]) *)

Class Truthy (A : Type) := truthy : A -> bool.

#[export] Instance Truthy_string : Truthy string :=
  fun s => match s with EmptyString => false | _ => true end.

#[export] Instance Truthy_list {A} : Truthy (list A) :=
  fun l => match l with [] => false | _ => true end.

(** [None] is falsy; a value that is present has its own truth value. *)
#[export] Instance Truthy_option {A} `{Truthy A} : Truthy (option A) :=
  fun o => match o with None => false | Some a => truthy a end.

(** ** Data model *)

(** Values a tool may return and the argument values of a tool call. *)
Inductive PyVal :=
| PyStr (s : string)
| PyInt (z : Z)
| PyNone.

(** [isinstance(v, str)] *)
Definition isinstance_str (v : PyVal) : bool :=
  match v with PyStr _ => true | _ => false end.

(** The keyword arguments of a tool call ([content_block.input]). *)
Definition ToolInput := list (string * PyVal).

(** Content blocks of an engine response. *)
Inductive ContentBlock :=
| TextBlock (text : string)
| ToolUseBlock (id : string) (name : string) (input : ToolInput).

(** [block.type] *)
Definition block_type (b : ContentBlock) : string :=
  match b with
  | TextBlock _ => "text"
  | ToolUseBlock _ _ _ => "tool_use"
  end.

Record Response := mkResponse {
  content : list ContentBlock;
  stop_reason : string
}.

(** The dict [{"type": "tool_result", "tool_use_id": ..., "content": ...}]. *)
Record ToolResult := mkToolResult {
  tool_use_id : string;
  result_content : PyVal
}.

Inductive Role := user | assistant.

Inductive MessageContent :=
| Text (s : string)
| Blocks (bs : list ContentBlock)
| ToolResults (rs : list ToolResult).

(** The dict [{"role": ..., "content": ...}]. *)
Record Message := mkMessage {
  role : Role;
  msg_content : MessageContent
}.

Record ToolSchema := mkToolSchema {
  schema_name : string;
  description : string;
  properties : list (string * string);
  required : list string
}.

(** [{"type": "auto"}] *)
Inductive ToolChoice := auto_choice.

(** The keyword arguments of [client.messages.create]; an absent key is
    [None]. *)
Record Request := mkRequest {
  model : string;
  temperature : Z;
  max_tokens : Z;
  messages : list Message;
  system : string;
  tools : option (list ToolSchema);
  tool_choice : option ToolChoice
}.

(** ** Effects

    The generation engine and the tool manager are black boxes acting on a
    world [W].  Every call to one of them is recorded, with its outcome, in
    a trace. *)

Inductive EngineOutcome :=
| EngineReturns (r : Response)
| EngineRaises (msg : string).

Inductive ToolOutcome :=
| ToolReturns (v : PyVal)
| ToolRaises (msg : string).

Inductive Event :=
| EngineCall (params : Request) (out : EngineOutcome)
| ToolCall (name : string) (input : ToolInput) (out : ToolOutcome).

(** Exceptions, tagged by where they are raised; [msg] is [str(e)]. *)
Inductive PyExn :=
| ToolError (msg : string)
| EngineError (msg : string)
| AttributeError
| IndexError.

Inductive Outcome (A : Type) :=
| Ok (a : A)
| Raised (e : PyExn)
| OutOfFuel.
Arguments Ok {A} a.
Arguments Raised {A} e.
Arguments OutOfFuel {A}.

Section Orchestrator.

Variable W : Type.

Definition Engine := W -> Request -> EngineOutcome * W.
Definition ToolManager := W -> string -> ToolInput -> ToolOutcome * W.

(** A truthy object: a tool manager that is supplied counts as present. *)
#[export] Instance Truthy_ToolManager : Truthy ToolManager := fun _ => true.

Definition M (A : Type) := W -> Outcome A * W * list Event.

Definition ret {A} (a : A) : M A := fun w => (Ok a, w, []).

Definition bind {A B} (m : M A) (f : A -> M B) : M B :=
  fun w =>
    match m w with
    | (Ok a, w1, t1) => let '(r, w2, t2) := f a w1 in (r, w2, t1 ++ t2)
    | (Raised e, w1, t1) => (Raised e, w1, t1)
    | (OutOfFuel, w1, t1) => (OutOfFuel, w1, t1)
    end.

Definition raise {A} (e : PyExn) : M A := fun w => (Raised e, w, []).

Definition out_of_fuel {A} : M A := fun w => (OutOfFuel, w, []).

(** [try: m  except Exception as e: h e] *)
Definition try_except {A} (m : M A) (h : PyExn -> M A) : M A :=
  fun w =>
    match m w with
    | (Raised e, w1, t1) => let '(r, w2, t2) := h e w1 in (r, w2, t1 ++ t2)
    | other => other
    end.

Notation "x <- m ;; k" := (bind m (fun x => k))
  (at level 61, m at next level, right associativity).
Notation "' pat <- m ;; k" := (bind m (fun x => match x with pat => k end))
  (at level 61, pat pattern, m at next level, right associativity).

(** [client.messages.create( **params )] *)
Definition messages_create (client : Engine) (params : Request) : M Response :=
  fun w =>
    let '(out, w') := client w params in
    (match out with
     | EngineReturns r => Ok r
     | EngineRaises msg => Raised (EngineError msg)
     end, w', [EngineCall params out]).

(** [tool_manager.execute_tool(name, **input)] *)
Definition execute_tool (tool_manager : ToolManager) (name : string)
    (input : ToolInput) : M PyVal :=
  fun w =>
    let '(out, w') := tool_manager w name input in
    (match out with
     | ToolReturns v => Ok v
     | ToolRaises msg => Raised (ToolError msg)
     end, w', [ToolCall name input out]).

(** [str(e)] *)
Definition str_exn (e : PyExn) : string :=
  match e with
  | ToolError msg => msg
  | EngineError msg => msg
  | AttributeError => "AttributeError"
  | IndexError => "list index out of range"
  end.

(** [response.content[0].text] *)
Definition content0_text (response : Response) : M string :=
  match content response with
  | [] => raise IndexError
  | TextBlock text :: _ => ret text
  | ToolUseBlock _ _ _ :: _ => raise AttributeError
  end.

(** ** class AIGenerator *)

(** The class constant [SYSTEM_PROMPT]: a fixed text, of which only the
    place in the [system] field matters here. *)
Variable SYSTEM_PROMPT : string.

Record AIGenerator := mkAIGenerator {
  client : Engine;
  self_model : string
}.

(** [{ **self.base_params, "messages": messages, "system": system }] *)
Definition base_params_with (self : AIGenerator) (msgs : list Message)
    (sys : string) : Request :=
  {| model := self_model self; temperature := 0; max_tokens := 800;
     messages := msgs; system := sys; tools := None; tool_choice := None |}.

(** [params["tools"] = ts; params["tool_choice"] = {"type": "auto"}] *)
Definition set_tools (params : Request) (ts : list ToolSchema) : Request :=
  {| model := model params; temperature := temperature params;
     max_tokens := max_tokens params; messages := messages params;
     system := system params; tools := Some ts;
     tool_choice := Some auto_choice |}.

(** [base_params.get("tools", [])] *)
Definition get_tools (params : Request) : list ToolSchema :=
  match tools params with Some ts => ts | None => [] end.

Definition is_tool_use (b : ContentBlock) : bool :=
  (block_type b =? "tool_use")%string.

(** The body of the [for] loop of [_execute_single_tool_round], on the
    accumulators [tool_results] and [has_failures]. *)
Definition round_step (tool_manager : ToolManager) (content_block : ContentBlock)
    (acc : list ToolResult * bool) : M (list ToolResult * bool) :=
  let '(tool_results, has_failures) := acc in
  match content_block with
  | ToolUseBlock id name input =>
      try_except
        (tool_result <- execute_tool tool_manager name input ;;
         let has_failures :=
           if isinstance_str tool_result &&
              match tool_result with
              | PyStr s => str_in "failed" (lower s)
              | _ => false
              end
           then true else has_failures in
         ret (tool_results ++ [mkToolResult id tool_result], has_failures))
        (fun e =>
           ret (tool_results ++
                  [mkToolResult id
                     (PyStr ("Tool execution failed: " ++ str_exn e)%string)],
                true))
  | TextBlock _ => ret (tool_results, has_failures)
  end.

Fixpoint for_blocks (tool_manager : ToolManager) (blocks : list ContentBlock)
    (acc : list ToolResult * bool) : M (list ToolResult * bool) :=
  match blocks with
  | [] => ret acc
  | content_block :: rest =>
      acc' <- round_step tool_manager content_block acc ;;
      for_blocks tool_manager rest acc'
  end.

Definition _execute_single_tool_round (response : Response)
    (tool_manager : ToolManager) : M (list ToolResult * bool) :=
  for_blocks tool_manager (content response) ([], false).

Definition MAX_ROUNDS : nat := 2.

(** The [while current_round <= MAX_ROUNDS] loop of
    [_handle_sequential_tool_execution]; [fuel] bounds the iterations. *)
Fixpoint while_rounds (fuel : nat) (self : AIGenerator) (base_params : Request)
    (tool_manager : ToolManager) (messages : list Message)
    (current_response : Response) (current_round : nat) : M Response :=
  match fuel with
  | O => out_of_fuel
  | S fuel' =>
      if (current_round <=? MAX_ROUNDS)%nat then
        let messages :=
          messages ++ [mkMessage assistant (Blocks (content current_response))] in
        '(tool_results, has_tool_failures) <-
          _execute_single_tool_round current_response tool_manager ;;
        if has_tool_failures then
          let messages := messages ++ [mkMessage user (ToolResults tool_results)] in
          let final_params :=
            base_params_with self messages (system base_params) in
          messages_create (client self) final_params
        else
          let messages :=
            if truthy tool_results
            then messages ++ [mkMessage user (ToolResults tool_results)]
            else messages in
          let api_params :=
            base_params_with self messages (system base_params) in
          let api_params :=
            if (current_round <? MAX_ROUNDS)%nat
            then set_tools api_params (get_tools base_params)
            else api_params in
          current_response <- messages_create (client self) api_params ;;
          let has_tool_use := existsb is_tool_use (content current_response) in
          if negb has_tool_use || (MAX_ROUNDS <=? current_round)%nat
          then ret current_response
          else while_rounds fuel' self base_params tool_manager messages
                 current_response (current_round + 1)
      else ret current_response
  end.

Definition _handle_sequential_tool_execution (self : AIGenerator)
    (initial_response : Response) (base_params : Request)
    (tool_manager : ToolManager) : M string :=
  let messages := messages base_params in
  let current_response := initial_response in
  let current_round := 1 in
  current_response <-
    while_rounds (S MAX_ROUNDS) self base_params tool_manager messages
      current_response current_round ;;
  content0_text current_response.

Definition generate_response (self : AIGenerator) (query : string)
    (conversation_history : option string) (tools : option (list ToolSchema))
    (tool_manager : option ToolManager) : M string :=
  let system_content :=
    match conversation_history with
    | Some h =>
        if truthy h
        then (SYSTEM_PROMPT ++ nl ++ nl ++ "Previous conversation:" ++ nl ++ h)%string
        else SYSTEM_PROMPT
    | None => SYSTEM_PROMPT
    end in
  let api_params :=
    base_params_with self [mkMessage user (Text query)] system_content in
  let api_params :=
    match tools with
    | Some ts => if truthy ts then set_tools api_params ts else api_params
    | None => api_params
    end in
  response <- messages_create (client self) api_params ;;
  match tool_manager with
  | Some tm =>
      if (stop_reason response =? "tool_use")%string && truthy tm
      then _handle_sequential_tool_execution self response api_params tm
      else content0_text response
  | None => content0_text response
  end.

End Orchestrator.

Arguments ret {W A} a.
Arguments bind {W A B} m f.
Arguments raise {W A} e.
Arguments try_except {W A} m h.
Arguments messages_create {W} client params.
Arguments execute_tool {W} tool_manager name input.
Arguments content0_text {W} response.
Arguments client {W} a.
Arguments self_model {W} a.
Arguments mkAIGenerator {W} client self_model.
Arguments base_params_with {W} self msgs sys.
Arguments round_step {W} tool_manager content_block acc.
Arguments for_blocks {W} tool_manager blocks acc.
Arguments _execute_single_tool_round {W} response tool_manager.
Arguments while_rounds {W} fuel self base_params tool_manager messages
  current_response current_round.
Arguments _handle_sequential_tool_execution {W} self initial_response
  base_params tool_manager.
Arguments generate_response {W} SYSTEM_PROMPT self query conversation_history
  tools tool_manager.

(** ** Observations on a trace *)

Definition is_tool_event (e : Event) : bool :=
  match e with ToolCall _ _ _ => true | EngineCall _ _ => false end.

(** The requests sent to the engine, in order. *)
Fixpoint engine_requests (t : list Event) : list Request :=
  match t with
  | [] => []
  | EngineCall params _ :: t' => params :: engine_requests t'
  | ToolCall _ _ _ :: t' => engine_requests t'
  end.

(** The tool executions at the head of a trace, up to the next engine call. *)
Fixpoint tool_prefix (t : list Event) : list Event :=
  match t with
  | ToolCall name input out :: t' => ToolCall name input out :: tool_prefix t'
  | _ => []
  end.

(** Every engine call of a trace with the tool executions that follow it
    before the next engine call: the executions that are a consequence of
    its response. *)
Fixpoint executions_after (t : list Event) : list (EngineOutcome * list Event) :=
  match t with
  | [] => []
  | EngineCall _ out :: t' => (out, tool_prefix t') :: executions_after t'
  | ToolCall _ _ _ :: t' => executions_after t'
  end.

(** The number of tool-execution rounds of a trace: its maximal runs of
    consecutive tool executions.  [in_round] tells whether the previous
    event was a tool execution. *)
Fixpoint count_rounds (in_round : bool) (t : list Event) : nat :=
  match t with
  | [] => 0
  | EngineCall _ _ :: t' => count_rounds false t'
  | ToolCall _ _ _ :: t' =>
      (if in_round then 0 else 1) + count_rounds true t'
  end.

Definition tool_rounds (t : list Event) : nat := count_rounds false t.

(** A tool execution failed: it raised, or it returned a string that
    contains the failure marker. *)
Definition failed_outcome (out : ToolOutcome) : bool :=
  match out with
  | ToolRaises _ => true
  | ToolReturns (PyStr s) => str_in "failed" (lower s)
  | ToolReturns _ => false
  end.

Definition failed_event (e : Event) : bool :=
  match e with
  | ToolCall _ _ out => failed_outcome out
  | EngineCall _ _ => false
  end.

(** [s] contains the word [word] up to the case of its letters. *)
Definition contains_ci (word s : string) : Prop :=
  exists pre mid post : string,
    s = (pre ++ mid ++ post)%string /\ lower mid = word.

(** The content of the tool result that stands for an outcome. *)
Definition content_of_outcome (out : ToolOutcome) : PyVal :=
  match out with
  | ToolReturns v => v
  | ToolRaises msg => PyStr ("Tool execution failed: " ++ msg)%string
  end.

(** The correlation identifiers of the tool-use blocks of a response. *)
Fixpoint tool_use_ids (bs : list ContentBlock) : list string :=
  match bs with
  | [] => []
  | TextBlock _ :: bs' => tool_use_ids bs'
  | ToolUseBlock id _ _ :: bs' => id :: tool_use_ids bs'
  end.

(** A round of tool executions answers the blocks of a response: one
    execution and one result per tool-use block, in the order of the
    blocks, the result carrying the identifier of its block. *)
Inductive round_matches :
    list ContentBlock -> list Event -> list ToolResult -> Prop :=
| rm_nil : round_matches [] [] []
| rm_text text bs t rs :
    round_matches bs t rs ->
    round_matches (TextBlock text :: bs) t rs
| rm_tool id name input out bs t rs :
    round_matches bs t rs ->
    round_matches (ToolUseBlock id name input :: bs)
      (ToolCall name input out :: t)
      (mkToolResult id (content_of_outcome out) :: rs).

(** The transcript invariant: an assistant turn that requests tools is
    followed at once by one user turn with one result per request, in
    order and with the same identifiers. *)
Inductive well_paired : list Message -> Prop :=
| wp_nil : well_paired []
| wp_text r s rest :
    well_paired rest ->
    well_paired (mkMessage r (Text s) :: rest)
| wp_plain bs rest :
    tool_use_ids bs = [] ->
    well_paired rest ->
    well_paired (mkMessage assistant (Blocks bs) :: rest)
| wp_round bs rs rest :
    map tool_use_id rs = tool_use_ids bs ->
    well_paired rest ->
    well_paired
      (mkMessage assistant (Blocks bs) :: mkMessage user (ToolResults rs) :: rest).

(** ** The runs of the round loop

    What one iteration of the loop sends to the engine, and the shape of
    the traces the loop can leave. *)

Definition outcome_of (out : EngineOutcome) : Outcome Response :=
  match out with
  | EngineReturns r => Ok r
  | EngineRaises msg => Raised (EngineError msg)
  end.

(** The transcript after a round: the assistant turn, then the results as
    one user turn. *)
Definition round_messages (msgs : list Message) (resp : Response)
    (rs : list ToolResult) (has_failures : bool) : list Message :=
  msgs ++ mkMessage assistant (Blocks (content resp)) ::
    (if has_failures || truthy rs then [mkMessage user (ToolResults rs)] else []).

(** The request that follows round [k]. *)
Definition round_params {W} (self : AIGenerator W) (bp : Request) (k : nat)
    (msgs : list Message) (has_failures : bool) : Request :=
  if negb has_failures && (k <? MAX_ROUNDS)%nat
  then set_tools (base_params_with self msgs (system bp)) (get_tools bp)
  else base_params_with self msgs (system bp).

(** The loop ends after the engine call that follows round [k]. *)
Definition stops_after (k : nat) (has_failures : bool) (out : EngineOutcome)
    : bool :=
  has_failures ||
  match out with
  | EngineRaises _ => true
  | EngineReturns r =>
      negb (existsb is_tool_use (content r)) || (MAX_ROUNDS <=? k)%nat
  end.

(** [loop_run self bp k msgs resp t res]: entered at round [k] with
    transcript [msgs] and response [resp], the loop leaves trace [t] and
    ends with [res]. *)
Inductive loop_run {W} (self : AIGenerator W) (bp : Request) :
    nat -> list Message -> Response -> list Event -> Outcome Response -> Prop :=
| run_stop k msgs resp t1 rs out :
    k <= MAX_ROUNDS ->
    round_matches (content resp) t1 rs ->
    stops_after k (existsb failed_event t1) out = true ->
    loop_run self bp k msgs resp
      (t1 ++ [EngineCall
                (round_params self bp k
                   (round_messages msgs resp rs (existsb failed_event t1))
                   (existsb failed_event t1))
                out])
      (outcome_of out)
| run_next k msgs resp t1 rs r t3 res :
    k < MAX_ROUNDS ->
    round_matches (content resp) t1 rs ->
    existsb failed_event t1 = false ->
    existsb is_tool_use (content r) = true ->
    loop_run self bp (k + 1) (round_messages msgs resp rs false) r t3 res ->
    loop_run self bp k msgs resp
      (t1 ++ EngineCall
               (round_params self bp k (round_messages msgs resp rs false) false)
               (EngineReturns r) :: t3)
      res.

(** The value of [response.content[0].text]. *)
Definition first_text (response : Response) : Outcome string :=
  match content response with
  | [] => Raised IndexError
  | TextBlock text :: _ => Ok text
  | ToolUseBlock _ _ _ :: _ => Raised AttributeError
  end.

(** What [generate_response] returns once the last engine call ended with
    [res]. *)
Definition finish (res : Outcome Response) : Outcome string :=
  match res with
  | Ok r => first_text r
  | Raised e => Raised e
  | OutOfFuel => OutOfFuel
  end.

(** ** A scripted engine and tool manager

    The world holds the outcomes still to be served, as the [side_effect]
    lists of the test suite do. *)

Module Mock.

Record World := mkWorld {
  create_side_effect : list EngineOutcome;
  execute_tool_side_effect : list ToolOutcome
}.

Definition create : Engine World :=
  fun w _ =>
    match create_side_effect w with
    | out :: rest => (out, mkWorld rest (execute_tool_side_effect w))
    | [] => (EngineRaises "StopIteration", w)
    end.

Definition tool_manager : ToolManager World :=
  fun w _ _ =>
    match execute_tool_side_effect w with
    | out :: rest => (out, mkWorld (create_side_effect w) rest)
    | [] => (ToolRaises "StopIteration", w)
    end.

Definition ai_generator : AIGenerator World :=
  mkAIGenerator create "claude-sonnet-4-20250514".

Definition PROMPT : string := "You are an AI assistant".

Definition mock_tools : list ToolSchema :=
  [mkToolSchema "search_course_content" "Search course materials"
     [("query", "string"); ("course_name", "string");
      ("lesson_number", "integer")]
     ["query"]].

Definition tool_use (id q : string) : Response :=
  mkResponse [ToolUseBlock id "search_course_content" [("query", PyStr q)]]
    "tool_use".

Definition text_response (s : string) : Response :=
  mkResponse [TextBlock s] "end_turn".

(** The first request of a call with [mock_tools]. *)
Definition first_params (query : string) : Request :=
  set_tools (base_params_with ai_generator [mkMessage user (Text query)] PROMPT)
    mock_tools.

(** Two rounds of tool use, then the answer
    ([test_generate_response_max_rounds_termination]). *)
Definition max_rounds_world : World :=
  mkWorld
    [EngineReturns (tool_use "tool_1" "test1");
     EngineReturns (tool_use "tool_2" "test2");
     EngineReturns (text_response "Final answer after max rounds")]
    [ToolReturns (PyStr "Result 1"); ToolReturns (PyStr "Result 2")].

Definition max_rounds_run :=
  generate_response PROMPT ai_generator "Multi-step query" None
    (Some mock_tools) (Some tool_manager) max_rounds_world.

(** The tool raises in round 1
    ([test_generate_response_tool_failure_termination]). *)
Definition tool_failure_world : World :=
  mkWorld
    [EngineReturns (tool_use "tool_123" "test");
     EngineReturns (text_response "I encountered an error with the search...")]
    [ToolRaises "Database connection failed"].

Definition tool_failure_run :=
  generate_response PROMPT ai_generator "Search for content" None
    (Some mock_tools) (Some tool_manager) tool_failure_world.

(** The round of the previous run, on its own. *)
Definition tool_failure_round :=
  _execute_single_tool_round (tool_use "tool_123" "test") tool_manager
    (mkWorld [] [ToolRaises "Database connection failed"]).

(** A successful search whose text happens to hold the marker. *)
Definition marker_text : string := "Lesson 3: why most startups Failed".

Definition marker_world : World :=
  mkWorld
    [EngineReturns (tool_use "tool_1" "startups");
     EngineReturns (text_response "Most startups run out of money.")]
    [ToolReturns (PyStr marker_text)].

Definition marker_run :=
  generate_response PROMPT ai_generator "Why do startups fail?" None
    (Some mock_tools) (Some tool_manager) marker_world.

Definition marker_round :=
  _execute_single_tool_round (tool_use "tool_1" "startups") tool_manager
    (mkWorld [] [ToolReturns (PyStr marker_text)]).

(** No tools, no tool manager ([test_generate_response_without_tools]). *)
Definition without_tools_world : World :=
  mkWorld [EngineReturns (text_response "This is a direct response")] [].

Definition without_tools_run :=
  generate_response PROMPT ai_generator "What is Python?" None None None
    without_tools_world.

(** No tools, but a tool manager, and an engine that asks for a tool. *)
Definition without_tools_tool_use_world : World :=
  mkWorld
    [EngineReturns (tool_use "tool_1" "Python");
     EngineReturns (text_response "Python is a language")]
    [ToolReturns (PyStr "Python course content found")].

Definition without_tools_tool_use_run :=
  generate_response PROMPT ai_generator "What is Python?" None None
    (Some tool_manager) without_tools_tool_use_world.

(** Tools, but no tool manager, and a response that is tool use only. *)
Definition without_manager_world : World :=
  mkWorld [EngineReturns (tool_use "tool_1" "Python")] [].

Definition without_manager_run :=
  generate_response PROMPT ai_generator "Tell me about Python" None
    (Some mock_tools) None without_manager_world.

(** The second response holds a tool-use block but stopped for another
    reason than [tool_use] (its output was cut at the token limit). *)
Definition cut_response : Response :=
  mkResponse
    [ToolUseBlock "tool_2" "search_course_content" [("query", PyStr "test2")]]
    "max_tokens".

Definition cut_response_world : World :=
  mkWorld
    [EngineReturns (tool_use "tool_1" "test1");
     EngineReturns cut_response;
     EngineReturns (text_response "Final answer")]
    [ToolReturns (PyStr "Result 1"); ToolReturns (PyStr "Result 2")].

Definition cut_response_run :=
  generate_response PROMPT ai_generator "Multi-step query" None
    (Some mock_tools) (Some tool_manager) cut_response_world.

End Mock.

(** ** The properties as the specification words them *)

(** No tool runs as a consequence of a response whose [stop_reason] is
    not [tool_use]. *)
Definition no_execution_unless_stopped_for_tool_use (t : list Event) : Prop :=
  forall r execs,
    In (EngineReturns r, execs) (executions_after t) ->
    stop_reason r <> "tool_use" -> execs = [].

(** Exactly one engine call is made. *)
Definition exactly_one_engine_call (t : list Event) : Prop :=
  length (engine_requests t) = 1.

(** ** The filtered vector index

    [backend/vector_store.py] is known through its specification and its
    tests only; the definitions of this module follow the specification. *)

Module VectorStore.

(** Modelled from the spec: the equality filter handed to the content
    collection ([vector_store.py] is not among the sources): a single
    equality clause on the course title or on the lesson number, or the
    conjunction [$and] of clauses. *)
#[warnings="-register-all"]
Inductive Filter :=
| course_title_eq (title : string)
| lesson_number_eq (n : Z)
| and_ (clauses : list Filter).

(** Modelled from the spec: the filter builder [_build_filter] of
    [vector_store.py] (absent from the sources): no filter if neither
    argument is given, a single equality clause if exactly one is given,
    the conjunction of both equality clauses if both are given. *)
Definition _build_filter (course_title : option string)
    (lesson_number : option Z) : option Filter :=
  match course_title, lesson_number with
  | None, None => None
  | Some title, None => Some (course_title_eq title)
  | None, Some n => Some (lesson_number_eq n)
  | Some title, Some n => Some (and_ [course_title_eq title; lesson_number_eq n])
  end.

Record Metadata := mkMetadata {
  course_title : string;
  lesson_number : option Z
}.

(** Modelled from the spec: the search result set of [vector_store.py]
    (absent from the sources): parallel sequences of document text,
    metadata and distance, plus an optional error. *)
Record SearchResults (D : Type) := mkSearchResults {
  documents : list string;
  metadata : list Metadata;
  distances : list D;
  error : option string
}.
Arguments mkSearchResults {D} documents metadata distances error.
Arguments documents {D} s.
Arguments metadata {D} s.
Arguments distances {D} s.
Arguments error {D} s.

(** [SearchResults.empty(error_msg)] *)
Definition empty {D} (error_msg : string) : SearchResults D :=
  mkSearchResults [] [] [] (Some error_msg).

Definition is_empty {D} (r : SearchResults D) : bool :=
  match documents r with [] => true | _ => false end.

Inductive CatalogOutcome :=
| CatalogRows (titles : list string)
| CatalogRaises (msg : string).

Inductive ContentOutcome (D : Type) :=
| ContentRows (rows : list (string * Metadata * D))
| ContentRaises (msg : string).
Arguments ContentRows {D} rows.
Arguments ContentRaises {D} msg.

(** The queries sent to the two collections. *)
Inductive StoreEvent :=
| CatalogQuery (text : string) (n_results : nat)
| ContentQuery (text : string) (n_results : nat) (where_ : option Filter).

Definition is_content_query (e : StoreEvent) : bool :=
  match e with ContentQuery _ _ _ => true | CatalogQuery _ _ => false end.

Section Store.

Variables V D : Type.

(** Modelled from the spec: the two collections of the vector database
    client behind [vector_store.py] (absent from the sources), each a
    nearest-neighbour query on a database state [V]. *)
Record Store := mkStore {
  course_catalog : V -> string -> nat -> CatalogOutcome * V;
  course_content : V -> string -> nat -> option Filter -> ContentOutcome D * V;
  max_results : nat
}.

(** Modelled from the spec: course-name resolution of [vector_store.py]
    (absent from the sources): a nearest-neighbour lookup of the name in
    the catalog that takes the title of the single closest match, and fails
    when the catalog has no entry or the lookup errors. *)
Definition _resolve_course_name (self : Store) (course_name : string) (v : V)
    : option string * V * list StoreEvent :=
  let '(out, v') := course_catalog self v course_name 1 in
  (match out with
   | CatalogRows (title :: _) => Some title
   | CatalogRows [] => None
   | CatalogRaises _ => None
   end, v', [CatalogQuery course_name 1]).

(** Modelled from the spec: the content query of [search] with its
    failure handling (steps 3 and 4 of the specification of
    [vector_store.py], absent from the sources). *)
Definition query_content (self : Store) (query : string)
    (filter_dict : option Filter) (v : V)
    : SearchResults D * V * list StoreEvent :=
  let '(out, v') := course_content self v query (max_results self) filter_dict in
  (match out with
   | ContentRows rows =>
       mkSearchResults (map (fun r => fst (fst r)) rows)
         (map (fun r => snd (fst r)) rows) (map snd rows) None
   | ContentRaises msg => empty ("Search error: " ++ msg)%string
   end, v', [ContentQuery query (max_results self) filter_dict]).

(** Modelled from the spec: [search] of [vector_store.py] (absent from the
    sources): resolve the course name if one is given and return the error
    result [No course found matching '<course_name>'] without querying the
    content collection when resolution fails; otherwise build the filter
    and query the content collection. *)
Definition search (self : Store) (query : string) (course_name : option string)
    (lesson_number : option Z) (v : V)
    : SearchResults D * V * list StoreEvent :=
  match course_name with
  | Some name =>
      let '(resolved, v1, t1) := _resolve_course_name self name v in
      match resolved with
      | None =>
          (empty ("No course found matching '" ++ name ++ "'")%string, v1, t1)
      | Some title =>
          let '(r, v2, t2) :=
            query_content self query (_build_filter (Some title) lesson_number) v1 in
          (r, v2, t1 ++ t2)
      end
  | None => query_content self query (_build_filter None lesson_number) v
  end.

End Store.

Arguments mkStore {V D} course_catalog course_content max_results.
Arguments course_catalog {V D} s.
Arguments course_content {V D} s.
Arguments max_results {V D} s.
Arguments _resolve_course_name {V D} self course_name v.
Arguments query_content {V D} self query filter_dict v.
Arguments search {V D} self query course_name lesson_number v.

(** A store whose catalog is a fixed list of titles (the closest match is
    the head) and whose content collection returns fixed rows. *)
Definition fixed_store (titles : list string)
    (rows : list (string * Metadata * nat)) : Store unit nat :=
  mkStore (fun v _ n => (CatalogRows (firstn n titles), v))
          (fun v _ n _ => (ContentRows (firstn n rows), v))
          5.

(** A store whose catalog lookup errors. *)
Definition broken_catalog_store : Store unit nat :=
  mkStore (fun v _ _ => (CatalogRaises "Query error", v))
          (fun v _ _ _ => (ContentRows [], v))
          5.

End VectorStore.

(** ** Further observations *)

(** The engine calls of a trace, each request with its outcome. *)
Fixpoint engine_calls (t : list Event) : list (Request * EngineOutcome) :=
  match t with
  | [] => []
  | EngineCall params out :: t' => (params, out) :: engine_calls t'
  | ToolCall _ _ _ :: t' => engine_calls t'
  end.

(** An engine call that raised. *)
Definition engine_raised (e : Event) : bool :=
  match e with
  | EngineCall _ (EngineRaises _) => true
  | _ => false
  end.

(** The transcript of request [p'] is that of the call [(p, out)] before
    it, extended by the content of the response of that call as an
    assistant turn and, when there are results, by one user turn with one
    result per tool-use block of the response. *)
Definition transcript_extends (p : Request) (out : EngineOutcome)
    (p' : Request) : Prop :=
  exists r rs,
    out = EngineReturns r /\
    map tool_use_id rs = tool_use_ids (content r) /\
    messages p' =
      messages p ++ mkMessage assistant (Blocks (content r)) ::
        (if truthy rs then [mkMessage user (ToolResults rs)] else []).

Fixpoint chain_from (p : Request) (out : EngineOutcome)
    (calls : list (Request * EngineOutcome)) : Prop :=
  match calls with
  | [] => True
  | (p', out') :: rest => transcript_extends p out p' /\ chain_from p' out' rest
  end.

(** Every call after the first extends the transcript of the call before
    it. *)
Definition transcripts_chain (calls : list (Request * EngineOutcome)) : Prop :=
  match calls with
  | [] => True
  | (p, out) :: rest => chain_from p out rest
  end.

(** The request [api_params] that [generate_response] builds for its first
    engine call. *)
Definition first_request {W} (SYSTEM_PROMPT : string) (self : AIGenerator W)
    (query : string) (conversation_history : option string)
    (tools : option (list ToolSchema)) : Request :=
  let system_content :=
    match conversation_history with
    | Some h =>
        if truthy h
        then (SYSTEM_PROMPT ++ nl ++ nl ++ "Previous conversation:" ++ nl ++ h)%string
        else SYSTEM_PROMPT
    | None => SYSTEM_PROMPT
    end in
  let api_params :=
    base_params_with self [mkMessage user (Text query)] system_content in
  match tools with
  | Some ts => if truthy ts then set_tools api_params ts else api_params
  | None => api_params
  end.

(** Further scripted runs. *)
Module Scenario.

(** A first response that stops for tool use but holds a text block only. *)
Definition text_only_tool_use : Response :=
  mkResponse [TextBlock "Let me look that up."] "tool_use".

Definition text_only_world : Mock.World :=
  Mock.mkWorld
    [EngineReturns text_only_tool_use;
     EngineReturns (Mock.text_response "Python is a language")]
    [].

Definition text_only_run :=
  generate_response Mock.PROMPT Mock.ai_generator "What is Python?" None
    (Some Mock.mock_tools) (Some Mock.tool_manager) text_only_world.

(** One round of tool use, then the answer
    ([test_generate_response_with_single_tool_use]). *)
Definition single_tool_world : Mock.World :=
  Mock.mkWorld
    [EngineReturns (Mock.tool_use "tool_123" "Python basics");
     EngineReturns (Mock.text_response "Python is a programming language...")]
    [ToolReturns (PyStr "Python course content found")].

Definition single_tool_run :=
  generate_response Mock.PROMPT Mock.ai_generator "Tell me about Python" None
    (Some Mock.mock_tools) (Some Mock.tool_manager) single_tool_world.

(** The engine fails on the call that follows round 1. *)
Definition engine_failure_world : Mock.World :=
  Mock.mkWorld
    [EngineReturns (Mock.tool_use "tool_1" "test1");
     EngineRaises "Connection error"]
    [ToolReturns (PyStr "Result 1")].

Definition engine_failure_run :=
  generate_response Mock.PROMPT Mock.ai_generator "Multi-step query"
    (Some "User: hello") (Some Mock.mock_tools) (Some Mock.tool_manager)
    engine_failure_world.

(** A round over a text block and two tool-use blocks, the tools of which
    return [None] and a number. *)
Definition mixed_response : Response :=
  mkResponse
    [ToolUseBlock "tool_a" "get_course_outline" [("course_name", PyStr "MCP")];
     TextBlock "and then";
     ToolUseBlock "tool_b" "search_course_content" [("query", PyStr "MCP")]]
    "tool_use".

Definition mixed_round :=
  _execute_single_tool_round mixed_response Mock.tool_manager
    (Mock.mkWorld [] [ToolReturns PyNone; ToolReturns (PyInt 404)]).

End Scenario.

(** ** The contract of the engine on tools *)

(** The engine asks for tools only when tools are offered: the response to
    a request without tools never stops for tool use. *)
Definition requests_tools_only_when_offered {W} (create : Engine W) : Prop :=
  forall w params r w',
    tools params = None ->
    create w params = (EngineReturns r, w') ->
    stop_reason r <> "tool_use".

(** An engine that answers every request with the same text. *)
Module Direct.

Definition create : Engine Mock.World :=
  fun w _ => (EngineReturns (Mock.text_response "This is a direct response"), w).

Definition ai_generator : AIGenerator Mock.World :=
  mkAIGenerator create "claude-sonnet-4-20250514".

Definition world : Mock.World :=
  Mock.mkWorld [] [ToolReturns (PyStr "Python course content found")].

(** No tools, but a tool manager. *)
Definition without_tools_run :=
  generate_response Mock.PROMPT ai_generator "What is Python?" None None
    (Some Mock.tool_manager) world.

End Direct.

(** * Properties *)

(** ** Strings *)

Lemma lower_app (a b : string) :
  lower (a ++ b) = (lower a ++ lower b)%string.
Proof.
  induction a as [|c a IH]; simpl; [reflexivity|now rewrite IH].
Qed.

Lemma startswith_app (p s : string) : startswith p (p ++ s) = true.
Proof.
  induction p as [|c p IH]; simpl; [reflexivity|].
  now rewrite Ascii.eqb_refl, IH.
Qed.

Lemma startswith_inv (p s : string) :
  startswith p s = true -> exists post, s = (p ++ post)%string.
Proof.
  revert s; induction p as [|c p IH]; intros s H.
  - now exists s.
  - destruct s as [|d s]; simpl in H; [discriminate|].
    apply andb_true_iff in H as [Hc Hp].
    apply Ascii.eqb_eq in Hc; subst d.
    destruct (IH _ Hp) as [post ->]. now exists post.
Qed.

Lemma startswith_str_in (sub s : string) :
  startswith sub s = true -> str_in sub s = true.
Proof.
  intros H. destruct s; simpl; now rewrite H.
Qed.

Lemma str_in_app (sub pre post : string) :
  str_in sub (pre ++ sub ++ post) = true.
Proof.
  induction pre as [|c pre IH].
  - cbn [append]. apply startswith_str_in, startswith_app.
  - simpl. rewrite IH. apply orb_true_r.
Qed.

Lemma str_in_inv (sub s : string) :
  str_in sub s = true -> exists pre post, s = (pre ++ sub ++ post)%string.
Proof.
  induction s as [|c s IH]; simpl; intros H.
  - rewrite orb_false_r in H. apply startswith_inv in H as [post ->].
    now exists EmptyString, post.
  - apply orb_true_iff in H as [H|H].
    + apply startswith_inv in H as [post ->]. now exists EmptyString, post.
    + destruct (IH H) as (pre & post & ->). now exists (String c pre), post.
Qed.

Lemma lower_split (s x y : string) :
  lower s = (x ++ y)%string ->
  exists a b, s = (a ++ b)%string /\ lower a = x /\ lower b = y.
Proof.
  revert s; induction x as [|c x IH]; intros s H.
  - now exists EmptyString, s.
  - destruct s as [|d s]; simpl in H; [discriminate|].
    injection H as Hc Hs.
    destruct (IH _ Hs) as (a & b & -> & Ha & Hb).
    exists (String d a), b. simpl. now rewrite Hc, Ha.
Qed.

(** The test of the source, [word in s.lower()], is containment up to
    case. *)
Lemma str_in_lower_iff (word s : string) :
  str_in word (lower s) = true <-> contains_ci word s.
Proof.
  split.
  - intros H. apply str_in_inv in H as (pre & post & E).
    apply lower_split in E as (a & bc & -> & _ & E).
    apply lower_split in E as (b & c & -> & Hb & _).
    now exists a, b, c.
  - intros (pre & mid & post & -> & <-).
    rewrite !lower_app. apply str_in_app.
Qed.

(** ** Traces *)

Lemma engine_requests_app (t1 t2 : list Event) :
  engine_requests (t1 ++ t2) = engine_requests t1 ++ engine_requests t2.
Proof.
  induction t1 as [|[p o|n i o] t1 IH]; simpl; [reflexivity| |assumption].
  now rewrite IH.
Qed.

Lemma tools_only_requests (t : list Event) :
  forallb is_tool_event t = true -> engine_requests t = [].
Proof.
  induction t as [|[p o|n i o] t IH]; simpl; intros H;
    [reflexivity|discriminate|auto].
Qed.

Lemma tool_prefix_tools_only (t rest : list Event) p out :
  forallb is_tool_event t = true ->
  tool_prefix (t ++ EngineCall p out :: rest) = t.
Proof.
  induction t as [|[p' o|n i o] t IH]; simpl; intros H;
    [reflexivity|discriminate|].
  now rewrite IH.
Qed.

Lemma executions_after_tools_only (t rest : list Event) :
  forallb is_tool_event t = true ->
  executions_after (t ++ rest) = executions_after rest.
Proof.
  induction t as [|[p o|n i o] t IH]; simpl; intros H;
    [reflexivity|discriminate|auto].
Qed.

Lemma count_rounds_in_round (t rest : list Event) p out :
  forallb is_tool_event t = true ->
  count_rounds true (t ++ EngineCall p out :: rest) = count_rounds false rest.
Proof.
  induction t as [|[p' o|n i o] t IH]; simpl; intros H;
    [reflexivity|discriminate|auto].
Qed.

Lemma count_rounds_tools_only (t rest : list Event) p out :
  forallb is_tool_event t = true ->
  tool_rounds (t ++ EngineCall p out :: rest) <= 1 + tool_rounds rest.
Proof.
  unfold tool_rounds. destruct t as [|[p' o|n i o] t]; simpl; intros H.
  - lia.
  - discriminate.
  - rewrite count_rounds_in_round by assumption. lia.
Qed.

(** A tool execution inside a trace [t1 ++ EngineCall p out :: t3] whose
    part [t1] holds tool executions only lies in [t1] or in [t3]. *)
Lemma split_at_tool_event (t1 t3 pre post : list Event) p out ev :
  forallb is_tool_event t1 = true ->
  is_tool_event ev = true ->
  pre ++ ev :: post = t1 ++ EngineCall p out :: t3 ->
  (exists mid, t1 = pre ++ ev :: mid /\ post = mid ++ EngineCall p out :: t3) \/
  (exists pre', pre = t1 ++ EngineCall p out :: pre' /\ t3 = pre' ++ ev :: post).
Proof.
  revert pre; induction t1 as [|e t1 IH]; intros pre H1 Hev E.
  - destruct pre as [|e' pre]; simpl in E.
    + injection E as -> _. discriminate.
    + injection E as -> E. right. now exists pre.
  - simpl in H1. apply andb_true_iff in H1 as [He H1].
    destruct pre as [|e' pre]; simpl in E; injection E as -> E.
    + left. now exists t1.
    + destruct (IH pre H1 Hev E) as [(mid & -> & ->)|(pre' & -> & ->)].
      * left. now exists mid.
      * right. now exists pre'.
Qed.

(** ** One round of tool executions *)

Lemma round_matches_ids bs t rs :
  round_matches bs t rs -> map tool_use_id rs = tool_use_ids bs.
Proof.
  induction 1; simpl; congruence.
Qed.

Lemma round_matches_tools_only bs t rs :
  round_matches bs t rs -> forallb is_tool_event t = true.
Proof.
  induction 1; simpl; auto.
Qed.

Lemma round_matches_no_tool_use bs t rs :
  round_matches bs t rs ->
  existsb is_tool_use bs = false -> t = [] /\ rs = [].
Proof.
  induction 1; simpl; intros Hb; auto; discriminate.
Qed.

(** The result at the position of an execution carries its outcome and
    the identifier of the block at that position. *)
Lemma round_matches_nth bs t rs :
  round_matches bs t rs ->
  forall pre name input out post,
    t = pre ++ ToolCall name input out :: post ->
    exists id,
      nth_error rs (length pre) = Some (mkToolResult id (content_of_outcome out)) /\
      nth_error (tool_use_ids bs) (length pre) = Some id.
Proof.
  induction 1; intros pre name' input' out' post E.
  - destruct pre; discriminate.
  - simpl. eauto.
  - destruct pre as [|e pre]; simpl in E; inversion E; subst.
    + exists id. now split.
    + simpl. eauto.
Qed.

Section RoundProperties.

Context {W : Type}.
Implicit Types (tm : ToolManager W) (w : W).

Lemma round_step_tool_use tm id name input rs hf w :
  round_step tm (ToolUseBlock id name input) (rs, hf) w =
  let '(out, w') := tm w name input in
  (Ok (rs ++ [mkToolResult id (content_of_outcome out)],
       hf || failed_outcome out),
   w', [ToolCall name input out]).
Proof.
  unfold round_step, try_except, bind, execute_tool, ret.
  destruct (tm w name input) as [[v|msg] w']; simpl.
  - destruct v as [s| |]; simpl; rewrite ?orb_false_r; try reflexivity.
    destruct (str_in "failed" (lower s)); simpl;
      now rewrite ?orb_true_r, ?orb_false_r.
  - now rewrite orb_true_r.
Qed.

(** The [for] loop never raises; it runs one tool per tool-use block and
    appends one result per execution. *)
Lemma for_blocks_spec tm blocks :
  forall rs0 hf0 w, exists rs w' t,
    for_blocks tm blocks (rs0, hf0) w =
      (Ok (rs0 ++ rs, hf0 || existsb failed_event t), w', t) /\
    round_matches blocks t rs.
Proof.
  induction blocks as [|b blocks IH]; intros rs0 hf0 w.
  - exists [], w, []. simpl. unfold ret.
    rewrite app_nil_r, orb_false_r. split; [reflexivity|constructor].
  - destruct b as [text|id name input].
    + destruct (IH rs0 hf0 w) as (rs & w' & t & E & Hm).
      exists rs, w', t. split; [|now constructor].
      simpl. unfold bind, ret. simpl. now rewrite E.
    + cbn [for_blocks]. unfold bind. rewrite round_step_tool_use.
      destruct (tm w name input) as [out w1].
      destruct (IH (rs0 ++ [mkToolResult id (content_of_outcome out)])
                   (hf0 || failed_outcome out) w1) as (rs & w' & t & E & Hm).
      rewrite E.
      exists (mkToolResult id (content_of_outcome out) :: rs), w',
        (ToolCall name input out :: t).
      split; [|now constructor].
      simpl. now rewrite <- app_assoc, orb_assoc.
Qed.

Lemma round_spec tm response w :
  exists rs w' t,
    _execute_single_tool_round response tm w =
      (Ok (rs, existsb failed_event t), w', t) /\
    round_matches (content response) t rs.
Proof.
  destruct (for_blocks_spec tm (content response) [] false w)
    as (rs & w' & t & E & Hm).
  now exists rs, w', t.
Qed.

End RoundProperties.

(** ** The round loop *)

Section LoopProperties.

Context {W : Type}.
Variables (self : AIGenerator W) (bp : Request) (tm : ToolManager W).

(** With fuel for the rounds that remain, the loop ends and its trace is
    a run. *)
Lemma while_rounds_run fuel :
  forall k msgs resp w,
    k <= MAX_ROUNDS -> MAX_ROUNDS < fuel + k ->
    exists res w' t,
      while_rounds fuel self bp tm msgs resp k w = (res, w', t) /\
      loop_run self bp k msgs resp t res.
Proof.
  induction fuel as [|fuel IH]; intros k msgs resp w Hk Hfuel.
  - simpl in Hfuel. lia.
  - cbn [while_rounds].
    apply Nat.leb_le in Hk as Hkb. rewrite Hkb.
    unfold bind at 1.
    destruct (round_spec tm resp w) as (rs & w1 & t1 & E & Hm). rewrite E.
    destruct (existsb failed_event t1) eqn:Hf.
    + unfold messages_create.
      match goal with |- context [client self w1 ?p] =>
        destruct (client self w1 p) as [out w2] eqn:Ec end.
      eexists _, _, _. split; [reflexivity|].
      pose proof (run_stop self bp k msgs resp t1 rs out Hk Hm) as R.
      rewrite Hf in R. unfold round_messages, round_params in R.
      simpl in R. rewrite <- app_assoc. apply R. reflexivity.
    + unfold bind, messages_create.
      match goal with |- context [client self w1 ?p] =>
        destruct (client self w1 p) as [out w2] eqn:Ec end.
      pose proof (run_stop self bp k msgs resp t1 rs out Hk Hm) as R.
      rewrite Hf in R. unfold round_messages, round_params in R.
      simpl in R.
      assert (Hmsgs :
        (if truthy rs
         then (msgs ++ [mkMessage assistant (Blocks (content resp))]) ++
              [mkMessage user (ToolResults rs)]
         else msgs ++ [mkMessage assistant (Blocks (content resp))]) =
        msgs ++ mkMessage assistant (Blocks (content resp)) ::
          (if truthy rs then [mkMessage user (ToolResults rs)] else [])).
      { destruct (truthy rs); [now rewrite <- app_assoc|reflexivity]. }
      rewrite Hmsgs in *. clear Hmsgs.
      destruct out as [r|msg].
      * destruct (negb (existsb is_tool_use (content r)) ||
                  (MAX_ROUNDS <=? k)%nat) eqn:Hstop.
        -- eexists _, _, _. split; [reflexivity|].
           apply R. simpl. exact Hstop.
        -- apply orb_false_iff in Hstop as [Hu Hlt].
           apply negb_false_iff in Hu. apply Nat.leb_gt in Hlt.
           match goal with |- context [while_rounds fuel self bp tm ?m r (k + 1) w2] =>
             destruct (IH (k + 1) m r w2) as (res & w3 & t3 & E3 & R3);
               [lia|lia|] end.
           rewrite E3. eexists _, _, _. split; [reflexivity|].
           pose proof (run_next self bp k msgs resp t1 rs r t3 res Hlt Hm Hf Hu) as R'.
           unfold round_messages, round_params in R'. simpl in R'.
           apply R'. exact R3.
      * eexists _, _, _. split; [reflexivity|].
        apply R. reflexivity.
Qed.

End LoopProperties.

(** ** Runs of the loop *)

Lemma well_paired_app (a b : list Message) :
  well_paired a -> well_paired b -> well_paired (a ++ b).
Proof.
  induction 1; simpl; intros Hb; auto using well_paired.
Qed.

Lemma failed_event_is_tool (ev : Event) :
  failed_event ev = true -> is_tool_event ev = true.
Proof.
  destruct ev; simpl; [discriminate|reflexivity].
Qed.

Lemma well_paired_round (msgs : list Message) resp t rs hf :
  well_paired msgs ->
  round_matches (content resp) t rs ->
  well_paired (round_messages msgs resp rs hf).
Proof.
  intros Hw Hm. unfold round_messages. apply well_paired_app; [assumption|].
  pose proof (round_matches_ids _ _ _ Hm) as Hids.
  destruct (hf || truthy rs) eqn:E.
  - apply wp_round; [assumption|constructor].
  - apply orb_false_iff in E as [_ E].
    destruct rs; [|discriminate].
    apply wp_plain; [now rewrite <- Hids|constructor].
Qed.

Section RunProperties.

Context {W : Type}.
Variables (self : AIGenerator W) (bp : Request).

Lemma round_params_messages k msgs hf :
  messages (round_params self bp k msgs hf) = msgs.
Proof.
  unfold round_params. now destruct (negb hf && (k <? MAX_ROUNDS)%nat).
Qed.

Lemma round_params_no_tools k msgs hf :
  hf = true \/ MAX_ROUNDS <= k ->
  tools (round_params self bp k msgs hf) = None /\
  tool_choice (round_params self bp k msgs hf) = None.
Proof.
  intros H. unfold round_params.
  destruct (negb hf && (k <? MAX_ROUNDS)%nat) eqn:E; [|now split].
  apply andb_true_iff in E as [E1 E2].
  apply negb_true_iff in E1. apply Nat.ltb_lt in E2.
  destruct H; [congruence|lia].
Qed.

(** The loop ends with a response or with the failure of an engine call. *)
Lemma run_result k msgs resp t res :
  loop_run self bp k msgs resp t res ->
  (exists r, res = Ok r) \/ (exists msg, res = Raised (EngineError msg)).
Proof.
  induction 1 as [k msgs resp t1 rs out _ _ _|]; [|assumption].
  destruct out; simpl; eauto.
Qed.

(** Entered at round [k], the loop makes at most [MAX_ROUNDS + 1 - k]
    engine calls and runs at most as many rounds; the calls from round
    [MAX_ROUNDS] on carry no tools. *)
Lemma run_requests k msgs resp t res :
  loop_run self bp k msgs resp t res ->
  length (engine_requests t) <= MAX_ROUNDS + 1 - k /\
  tool_rounds t <= MAX_ROUNDS + 1 - k /\
  forall i req,
    nth_error (engine_requests t) i = Some req ->
    MAX_ROUNDS <= k + i ->
    tools req = None /\ tool_choice req = None.
Proof.
  induction 1 as [k msgs resp t1 rs out Hk Hm Hs
                 |k msgs resp t1 rs r t3 res Hk Hm Hf Hu R IH];
    pose proof (round_matches_tools_only _ _ _ Hm) as Ht;
    rewrite engine_requests_app, (tools_only_requests _ Ht);
    cbn [engine_requests app length].
  - split; [lia|]. split.
    + etransitivity; [apply count_rounds_tools_only; exact Ht|].
      unfold tool_rounds. cbn [count_rounds]. lia.
    + intros [|i] req E Hi; [|destruct i; discriminate].
      injection E as <-. apply round_params_no_tools. right. lia.
  - destruct IH as (IH1 & IH2 & IH3). split; [lia|]. split.
    + etransitivity; [apply count_rounds_tools_only; exact Ht|]. lia.
    + intros [|i] req E Hi; [lia|].
      cbn [nth_error] in E. apply (IH3 i req E). lia.
Qed.

(** After a failed tool execution the round is completed, one engine call
    without tools follows, and the loop is over. *)
Lemma run_failure k msgs resp t res :
  loop_run self bp k msgs resp t res ->
  forall pre ev post,
    t = pre ++ ev :: post ->
    failed_event ev = true ->
    exists p out,
      post = tool_prefix post ++ [EngineCall p out] /\
      tools p = None /\ tool_choice p = None.
Proof.
  induction 1 as [k msgs resp t1 rs out Hk Hm Hs
                 |k msgs resp t1 rs r t3 res Hk Hm Hf Hu R IH];
    intros pre ev post E Hev;
    pose proof (round_matches_tools_only _ _ _ Hm) as Ht;
    pose proof (failed_event_is_tool _ Hev) as Htool;
    symmetry in E;
    destruct (split_at_tool_event _ _ _ _ _ _ _ Ht Htool E)
      as [(mid & E1 & E2)|(pre' & E1 & E2)].
  - subst t1 post.
    rewrite forallb_app in Ht. apply andb_true_iff in Ht as [_ Ht].
    simpl in Ht. apply andb_true_iff in Ht as [_ Ht].
    assert (Hfail : existsb failed_event (pre ++ ev :: mid) = true).
    { rewrite existsb_app. simpl. rewrite Hev. now rewrite orb_true_r. }
    eexists _, out. rewrite tool_prefix_tools_only by assumption.
    split; [reflexivity|]. apply round_params_no_tools. now left.
  - destruct pre'; discriminate.
  - subst t1. rewrite existsb_app in Hf. simpl in Hf. rewrite Hev in Hf.
    now rewrite orb_true_r in Hf.
  - eapply IH; eassumption.
Qed.

(** Every transcript sent to the engine is paired. *)
Lemma run_paired k msgs resp t res :
  loop_run self bp k msgs resp t res ->
  well_paired msgs ->
  Forall (fun req => well_paired (messages req)) (engine_requests t).
Proof.
  induction 1 as [k msgs resp t1 rs out Hk Hm Hs
                 |k msgs resp t1 rs r t3 res Hk Hm Hf Hu R IH];
    intros Hw;
    pose proof (round_matches_tools_only _ _ _ Hm) as Ht;
    rewrite engine_requests_app, (tools_only_requests _ Ht); simpl;
    constructor; rewrite ?round_params_messages;
    eauto using well_paired_round.
Qed.

(** Tools run only for a response that holds a tool-use block. *)
Lemma run_executions k msgs resp t res :
  loop_run self bp k msgs resp t res ->
  (existsb is_tool_use (content resp) = false -> tool_prefix t = []) /\
  Forall (fun oe : EngineOutcome * list Event =>
            forall r, fst oe = EngineReturns r ->
                      existsb is_tool_use (content r) = false -> snd oe = [])
    (executions_after t).
Proof.
  induction 1 as [k msgs resp t1 rs out Hk Hm Hs
                 |k msgs resp t1 rs r t3 res Hk Hm Hf Hu R IH];
    pose proof (round_matches_tools_only _ _ _ Hm) as Ht;
    rewrite tool_prefix_tools_only, executions_after_tools_only by assumption;
    (split; [intros Hn; now apply (round_matches_no_tool_use _ _ _ Hm)|]);
    simpl; constructor; simpl; auto.
  - intros r' E Hn. injection E as <-. congruence.
  - apply IH.
Qed.

(** The head of a run: the first round and the engine call after it. *)
Lemma run_head k msgs resp t res :
  loop_run self bp k msgs resp t res ->
  exists rs out rest,
    round_matches (content resp) (tool_prefix t) rs /\
    t = tool_prefix t ++
        EngineCall
          (round_params self bp k
             (round_messages msgs resp rs (existsb failed_event (tool_prefix t)))
             (existsb failed_event (tool_prefix t)))
          out :: rest /\
    (existsb failed_event (tool_prefix t) = true -> rest = []).
Proof.
  destruct 1 as [k msgs resp t1 rs out Hk Hm Hs
                |k msgs resp t1 rs r t3 res Hk Hm Hf Hu R];
    pose proof (round_matches_tools_only _ _ _ Hm) as Ht;
    rewrite tool_prefix_tools_only by assumption.
  - exists rs, out, []. auto.
  - exists rs, (EngineReturns r), t3. rewrite Hf.
    repeat split; [assumption|discriminate].
Qed.

End RunProperties.

(** ** [generate_response] *)

Section GenerateProperties.

Context {W : Type}.
Variables (PROMPT : string) (self : AIGenerator W) (query : string)
  (history : option string) (tools_arg : option (list ToolSchema)).

Lemma content0_text_run (r : Response) (w : W) :
  content0_text r w = (first_text r, w, []).
Proof.
  unfold content0_text, first_text.
  now destruct (content r) as [|[text|id name input] bs].
Qed.

(** A call makes its first engine call with the user's query alone and
    with the tools only if some are supplied; then it either answers from
    that response, or enters the loop at round 1. *)
Lemma generate_response_cases (otm : option (ToolManager W)) (w : W) :
  exists p1 out1 w1,
    client self w p1 = (out1, w1) /\
    messages p1 = [mkMessage user (Text query)] /\
    tools p1 = (if truthy tools_arg then tools_arg else None) /\
    tool_choice p1 = (if truthy tools_arg then Some auto_choice else None) /\
    ((generate_response PROMPT self query history tools_arg otm w =
        (finish (outcome_of out1), w1, [EngineCall p1 out1]) /\
      forall r, out1 = EngineReturns r ->
                otm = None \/ stop_reason r <> "tool_use") \/
     (exists r tm res w' t,
        out1 = EngineReturns r /\ otm = Some tm /\
        stop_reason r = "tool_use" /\
        loop_run self p1 1 (messages p1) r t res /\
        generate_response PROMPT self query history tools_arg otm w =
          (finish res, w', EngineCall p1 out1 :: t))).
Proof.
  pose proof (eq_refl (generate_response PROMPT self query history tools_arg otm w))
    as G.
  unfold generate_response at 2 in G.
  match type of G with context [messages_create (client self) ?p] =>
    set (p1 := p) in G end.
  destruct (client self w p1) as [out1 w1] eqn:Ec.
  exists p1, out1, w1. split; [exact Ec|].
  assert (Hp : messages p1 = [mkMessage user (Text query)] /\
               tools p1 = (if truthy tools_arg then tools_arg else None) /\
               tool_choice p1 =
                 (if truthy tools_arg then Some auto_choice else None)).
  { subst p1. destruct tools_arg as [[|s ts]|]; simpl; auto. }
  destruct Hp as (Hm & Ht & Hc). repeat (split; [assumption|]).
  unfold bind at 1, messages_create in G. rewrite Ec in G.
  destruct out1 as [r|msg].
  - destruct otm as [tm|].
    + destruct (stop_reason r =? "tool_use")%string eqn:Es;
        cbn [andb truthy Truthy_ToolManager] in G.
      * right. apply String.eqb_eq in Es.
        unfold _handle_sequential_tool_execution, bind in G.
        destruct (while_rounds_run self p1 tm (S MAX_ROUNDS) 1 (messages p1) r w1)
          as (res & w' & t & E & R); [unfold MAX_ROUNDS; lia..|].
        rewrite E in G. exists r, tm, res, w', t.
        repeat (split; [first [reflexivity|assumption]|]).
        rewrite G. destruct res as [r'| |]; simpl; try reflexivity.
        rewrite content0_text_run. now rewrite app_nil_r.
      * left. rewrite content0_text_run in G. split; [exact G|].
        intros r' E. injection E as <-. right.
        now apply String.eqb_neq in Es.
    + left. rewrite content0_text_run in G. split; [exact G|]. auto.
  - left. split; [exact G|]. discriminate.
Qed.

End GenerateProperties.

(** ** The claims on the orchestrator *)

Lemma round_matches_raised bs t rs :
  round_matches bs t rs ->
  forall name input msg,
    In (ToolCall name input (ToolRaises msg)) t ->
    In (PyStr ("Tool execution failed: " ++ msg)%string) (map result_content rs).
Proof.
  induction 1; intros name' input' msg' Hin; cbn [map In result_content] in *;
    eauto.
  destruct Hin as [E|Hin]; [|eauto].
  injection E as _ _ ->. now left.
Qed.

(** C1: in every call of [generate_response] at most 2 rounds of tool
    executions take place and at most 3 engine calls are made, the call
    ends (the fuel of the loop is never exhausted), and the third engine
    call, if there is one, carries neither tools nor a tool choice. *)
Theorem rounds_bounded_third_call_without_tools
    {W : Type} (PROMPT : string) (self : AIGenerator W) (query : string)
    (history : option string) (tools_arg : option (list ToolSchema))
    (otm : option (ToolManager W)) (w : W) res w' t :
  generate_response PROMPT self query history tools_arg otm w = (res, w', t) ->
  tool_rounds t <= 2 /\
  length (engine_requests t) <= 3 /\
  res <> OutOfFuel /\
  forall req,
    nth_error (engine_requests t) 2 = Some req ->
    tools req = None /\ tool_choice req = None.
Proof.
  intros G.
  destruct (generate_response_cases PROMPT self query history tools_arg otm w)
    as (p1 & out1 & w1 & _ & _ & _ & _ &
        [[E _]|(r & tm & res' & w'' & t' & -> & -> & _ & R & E)]);
    rewrite G in E; injection E as -> -> ->.
  - unfold tool_rounds. cbn [count_rounds engine_requests length nth_error].
    split; [lia|]. split; [lia|]. split; [|discriminate].
    destruct out1 as [r|msg]; simpl; [|discriminate].
    unfold first_text. now destruct (content r) as [|[]].
  - destruct (run_requests _ _ _ _ _ _ _ R) as (H1 & H2 & H3).
    unfold MAX_ROUNDS in *. unfold tool_rounds in *.
    cbn [count_rounds engine_requests length nth_error].
    split; [lia|]. split; [lia|]. split.
    + destruct (run_result _ _ _ _ _ _ _ R) as [[r' ->]|[msg ->]]; simpl;
        [|discriminate].
      unfold first_text. now destruct (content r') as [|[]].
    + intros req E. apply (H3 1 req); [exact E|lia].
Qed.

Lemma rounds_bounded_third_call_without_tools_witness :
  tool_rounds (snd Mock.max_rounds_run) <= 2 /\
  length (engine_requests (snd Mock.max_rounds_run)) <= 3 /\
  fst (fst Mock.max_rounds_run) <> OutOfFuel /\
  forall req,
    nth_error (engine_requests (snd Mock.max_rounds_run)) 2 = Some req ->
    tools req = None /\ tool_choice req = None.
Proof.
  apply (rounds_bounded_third_call_without_tools Mock.PROMPT Mock.ai_generator
           "Multi-step query" None (Some Mock.mock_tools)
           (Some Mock.tool_manager) Mock.max_rounds_world
           (fst (fst Mock.max_rounds_run)) (snd (fst Mock.max_rounds_run))
           (snd Mock.max_rounds_run)).
  reflexivity.
Defined.

(** The run of the test suite reaches both bounds. *)
Example max_rounds_run_reaches_bounds :
  tool_rounds (snd Mock.max_rounds_run) = 2 /\
  length (engine_requests (snd Mock.max_rounds_run)) = 3 /\
  fst (fst Mock.max_rounds_run) = Ok "Final answer after max rounds".
Proof. repeat split. Qed.

(** C2: when the first response asks for tools and a tool execution of
    round 1 fails, the trace is the first engine call, the executions of
    round 1 and one more engine call: 2 engine calls in all.  The second
    call carries neither tools nor a tool choice, and its transcript is
    that of the first call followed by the assistant turn and one user
    turn with the results of the round, the error texts among them. *)
Theorem failure_in_round_1_forces_final_call
    {W : Type} (PROMPT : string) (self : AIGenerator W) (query : string)
    (history : option string) (tools_arg : option (list ToolSchema))
    (otm : option (ToolManager W)) (w : W) res w' p1 resp1 rest :
  generate_response PROMPT self query history tools_arg otm w =
    (res, w', EngineCall p1 (EngineReturns resp1) :: rest) ->
  stop_reason resp1 = "tool_use" ->
  existsb failed_event (tool_prefix rest) = true ->
  exists rs p2 out2,
    rest = tool_prefix rest ++ [EngineCall p2 out2] /\
    length (engine_requests (EngineCall p1 (EngineReturns resp1) :: rest)) = 2 /\
    tools p2 = None /\ tool_choice p2 = None /\
    messages p2 =
      messages p1 ++ [mkMessage assistant (Blocks (content resp1));
                      mkMessage user (ToolResults rs)] /\
    round_matches (content resp1) (tool_prefix rest) rs /\
    forall name input msg,
      In (ToolCall name input (ToolRaises msg)) (tool_prefix rest) ->
      In (PyStr ("Tool execution failed: " ++ msg)%string)
         (map result_content rs).
Proof.
  intros G Hstop Hfail.
  destruct (generate_response_cases PROMPT self query history tools_arg otm w)
    as (p & out1 & w1 & _ & _ & _ & _ &
        [[E _]|(r & tm & res' & w'' & t' & -> & -> & _ & R & E)]);
    rewrite G in E; inversion E; subst; clear E.
  - discriminate.
  - rename t' into t.
    destruct (run_head _ _ _ _ _ _ _ R) as (rs & out & rest' & Hm & Et & Hlast).
    rewrite Hfail in *. specialize (Hlast eq_refl). subst rest'.
    match type of Et with _ = _ ++ [EngineCall ?q _] => set (p2 := q) in * end.
    exists rs, p2, out. split; [exact Et|].
    pose proof (round_matches_tools_only _ _ _ Hm) as Ht.
    split.
    { rewrite Et. cbn [engine_requests].
      rewrite engine_requests_app, (tools_only_requests _ Ht). reflexivity. }
    destruct (round_params_no_tools self p 1
                (round_messages (messages p) r rs true) true) as [Hn1 Hn2];
      [now left|].
    split; [exact Hn1|]. split; [exact Hn2|]. split.
    { subst p2. rewrite round_params_messages. reflexivity. }
    split; [exact Hm|].
    intros name input msg. now apply round_matches_raised with (1 := Hm).
Qed.

Lemma failure_in_round_1_forces_final_call_witness :
  exists rs p2 out2,
    tl (snd Mock.tool_failure_run) =
      tool_prefix (tl (snd Mock.tool_failure_run)) ++ [EngineCall p2 out2] /\
    length (engine_requests
              (EngineCall (Mock.first_params "Search for content")
                 (EngineReturns (Mock.tool_use "tool_123" "test")) ::
               tl (snd Mock.tool_failure_run))) = 2 /\
    tools p2 = None /\ tool_choice p2 = None /\
    messages p2 =
      messages (Mock.first_params "Search for content") ++
      [mkMessage assistant (Blocks (content (Mock.tool_use "tool_123" "test")));
       mkMessage user (ToolResults rs)] /\
    round_matches (content (Mock.tool_use "tool_123" "test"))
      (tool_prefix (tl (snd Mock.tool_failure_run))) rs /\
    forall name input msg,
      In (ToolCall name input (ToolRaises msg))
         (tool_prefix (tl (snd Mock.tool_failure_run))) ->
      In (PyStr ("Tool execution failed: " ++ msg)%string)
         (map result_content rs).
Proof.
  apply (failure_in_round_1_forces_final_call Mock.PROMPT Mock.ai_generator
           "Search for content" None (Some Mock.mock_tools)
           (Some Mock.tool_manager) Mock.tool_failure_world
           (fst (fst Mock.tool_failure_run)) (snd (fst Mock.tool_failure_run))).
  - reflexivity.
  - reflexivity.
  - reflexivity.
Defined.

(** The transcripts of the run of the test suite, spelled out. *)
Example max_rounds_run_transcripts :
  map (fun req => map role (messages req))
      (engine_requests (snd Mock.max_rounds_run)) =
  [[user]; [user; assistant; user]; [user; assistant; user; assistant; user]].
Proof. reflexivity. Qed.

(** C4, as the specification words it, fails: a response of the loop that
    holds a tool-use block has its tool run although its [stop_reason] is
    [max_tokens]. *)
Lemma stop_reason_not_consulted_in_loop :
  ~ no_execution_unless_stopped_for_tool_use (snd Mock.cut_response_run).
Proof.
  intros H.
  specialize (H Mock.cut_response
                [ToolCall "search_course_content" [("query", PyStr "test2")]
                   (ToolReturns (PyStr "Result 2"))]).
  assert (E : [ToolCall "search_course_content" [("query", PyStr "test2")]
                 (ToolReturns (PyStr "Result 2"))] = []).
  { apply H.
    - right. left. reflexivity.
    - discriminate. }
  discriminate E.
Qed.

(** C4, amended: no tool runs after a first response whose [stop_reason]
    is not [tool_use] (the call is over with it), and no tool runs after
    any response, first or later, that holds no tool-use block. *)
Theorem tools_run_only_for_tool_use_blocks
    {W : Type} (PROMPT : string) (self : AIGenerator W) (query : string)
    (history : option string) (tools_arg : option (list ToolSchema))
    (otm : option (ToolManager W)) (w : W) res w' t :
  generate_response PROMPT self query history tools_arg otm w = (res, w', t) ->
  (forall r execs rest,
     executions_after t = (EngineReturns r, execs) :: rest ->
     stop_reason r <> "tool_use" -> execs = [] /\ rest = []) /\
  (forall r execs,
     In (EngineReturns r, execs) (executions_after t) ->
     existsb is_tool_use (content r) = false -> execs = []).
Proof.
  intros G.
  destruct (generate_response_cases PROMPT self query history tools_arg otm w)
    as (p1 & out1 & w1 & _ & _ & _ & _ &
        [[E _]|(r & tm & res' & w'' & t' & -> & -> & Hstop & R & E)]);
    rewrite G in E; injection E as -> -> ->; cbn [executions_after tool_prefix].
  - split.
    + intros r execs rest E _. now injection E as _ <- <-.
    + intros r execs [E|[]] _. now injection E as _ <-.
  - destruct (run_executions _ _ _ _ _ _ _ R) as [Hhead Hall]. split.
    + intros r' execs rest E Hne. injection E as <- _ _. contradiction.
    + intros r' execs [E|Hin] Hno.
      * injection E as <- <-. auto.
      * rewrite Forall_forall in Hall.
        apply (Hall _ Hin r' eq_refl Hno).
Qed.

Lemma tools_run_only_for_tool_use_blocks_witness :
  (forall r execs rest,
     executions_after (snd Mock.cut_response_run) =
       (EngineReturns r, execs) :: rest ->
     stop_reason r <> "tool_use" -> execs = [] /\ rest = []) /\
  (forall r execs,
     In (EngineReturns r, execs) (executions_after (snd Mock.cut_response_run)) ->
     existsb is_tool_use (content r) = false -> execs = []).
Proof.
  apply (tools_run_only_for_tool_use_blocks Mock.PROMPT Mock.ai_generator
           "Multi-step query" None (Some Mock.mock_tools)
           (Some Mock.tool_manager) Mock.cut_response_world
           (fst (fst Mock.cut_response_run)) (snd (fst Mock.cut_response_run))
           (snd Mock.cut_response_run)).
  reflexivity.
Defined.

Lemma finish_not_tool_error (res : Outcome Response) :
  (exists r, res = Ok r) \/ (exists msg, res = Raised (EngineError msg)) ->
  forall m, finish res <> Raised (ToolError m).
Proof.
  intros [[r ->]|[msg ->]] m; simpl; [|discriminate].
  unfold first_text. destruct (content r) as [|[]]; discriminate.
Qed.

(** C5: a round one of whose tool executions raises an exception with
    message [msg] still returns normally; the result at the position of
    that execution carries the identifier of its tool-use block and the
    content [Tool execution failed: msg]; the round is marked as failed.
    [generate_response] never ends with an exception raised by a tool. *)
Theorem tool_exception_becomes_failed_result
    {W : Type} (tm : ToolManager W) (response : Response) (w : W)
    r w' pre name input msg post
    (PROMPT : string) (self : AIGenerator W) (query : string)
    (history : option string) (tools_arg : option (list ToolSchema))
    (otm : option (ToolManager W)) (w0 : W) (m : string) :
  _execute_single_tool_round response tm w =
    (r, w', pre ++ ToolCall name input (ToolRaises msg) :: post) ->
  (exists rs id,
     r = Ok (rs, true) /\
     nth_error rs (length pre) =
       Some (mkToolResult id (PyStr ("Tool execution failed: " ++ msg)%string)) /\
     nth_error (tool_use_ids (content response)) (length pre) = Some id) /\
  fst (fst (generate_response PROMPT self query history tools_arg otm w0)) <>
    Raised (ToolError m).
Proof.
  intros E. split.
  - destruct (round_spec tm response w) as (rs & w1 & t & E' & Hm).
    rewrite E in E'. injection E' as -> -> <-.
    destruct (round_matches_nth _ _ _ Hm _ _ _ _ _ eq_refl) as (id & H1 & H2).
    exists rs, id. split; [|now split].
    rewrite existsb_app. simpl. now rewrite orb_true_r.
  - destruct (generate_response_cases PROMPT self query history tools_arg otm w0)
      as (p1 & out1 & w1 & _ & _ & _ & _ &
          [[G _]|(r' & tm' & res' & w'' & t' & -> & -> & _ & R & G)]);
      rewrite G; cbn [fst]; apply finish_not_tool_error.
    + destruct out1; simpl; eauto.
    + now apply run_result with (1 := R).
Qed.

Lemma tool_exception_becomes_failed_result_witness :
  (exists rs id,
     fst (fst Mock.tool_failure_round) = Ok (rs, true) /\
     nth_error rs 0 =
       Some (mkToolResult id
               (PyStr "Tool execution failed: Database connection failed")) /\
     nth_error (tool_use_ids (content (Mock.tool_use "tool_123" "test"))) 0 =
       Some id) /\
  fst (fst Mock.tool_failure_run) <> Raised (ToolError "Database connection failed").
Proof.
  apply (tool_exception_becomes_failed_result Mock.tool_manager
           (Mock.tool_use "tool_123" "test")
           (Mock.mkWorld [] [ToolRaises "Database connection failed"])
           (fst (fst Mock.tool_failure_round)) (snd (fst Mock.tool_failure_round))
           [] "search_course_content" [("query", PyStr "test")]
           "Database connection failed" []
           Mock.PROMPT Mock.ai_generator "Search for content" None
           (Some Mock.mock_tools) (Some Mock.tool_manager)
           Mock.tool_failure_world).
  reflexivity.
Defined.

(** C6: when a tool returns a string that contains [failed] in any mix of
    cases, the round is marked as failed, whatever the string means; in
    [generate_response] the rest of the round is run, then exactly one
    more engine call is made, without tools and without tool choice, and
    nothing follows it. *)
Theorem failure_marker_ends_the_loop (name : string) (input : ToolInput)
    (s : string) :
  contains_ci "failed" s ->
  (forall (W : Type) (tm : ToolManager W) (response : Response) (w : W)
          r w' pre post,
     _execute_single_tool_round response tm w =
       (r, w', pre ++ ToolCall name input (ToolReturns (PyStr s)) :: post) ->
     exists rs, r = Ok (rs, true)) /\
  (forall (W : Type) (PROMPT : string) (self : AIGenerator W) (query : string)
          (history : option string) (tools_arg : option (list ToolSchema))
          (otm : option (ToolManager W)) (w : W) res w' pre post,
     generate_response PROMPT self query history tools_arg otm w =
       (res, w', pre ++ ToolCall name input (ToolReturns (PyStr s)) :: post) ->
     exists p out,
       post = tool_prefix post ++ [EngineCall p out] /\
       tools p = None /\ tool_choice p = None).
Proof.
  intros Hs. apply str_in_lower_iff in Hs.
  assert (Hev : failed_event (ToolCall name input (ToolReturns (PyStr s))) = true)
    by exact Hs.
  split.
  - intros W tm response w r w' pre post E.
    destruct (round_spec tm response w) as (rs & w1 & t & E' & Hm).
    rewrite E in E'. injection E' as -> -> <-.
    exists rs. rewrite existsb_app. cbn [existsb]. rewrite Hev.
    now rewrite orb_true_r.
  - intros W PROMPT self query history tools_arg otm w res w' pre post G.
    destruct (generate_response_cases PROMPT self query history tools_arg otm w)
      as (p1 & out1 & w1 & _ & _ & _ & _ &
          [[E _]|(r & tm & res' & w'' & t' & -> & -> & _ & R & E)]);
      rewrite G in E; injection E as _ _ E.
    + destruct pre as [|e [|e' pre]]; discriminate.
    + destruct pre as [|e pre]; [discriminate|].
      injection E as _ E. symmetry in E.
      now apply (run_failure _ _ _ _ _ _ _ R pre _ post E).
Qed.

Lemma failure_marker_ends_the_loop_witness :
  contains_ci "failed" Mock.marker_text /\
  (exists rs, fst (fst Mock.marker_round) = Ok (rs, true)) /\
  (exists p out,
     skipn 2 (snd Mock.marker_run) =
       tool_prefix (skipn 2 (snd Mock.marker_run)) ++ [EngineCall p out] /\
     tools p = None /\ tool_choice p = None).
Proof.
  assert (Hs : contains_ci "failed" Mock.marker_text).
  { exists "Lesson 3: why most startups ", "Failed", "". now split. }
  split; [exact Hs|].
  destruct (failure_marker_ends_the_loop "search_course_content"
              [("query", PyStr "startups")] Mock.marker_text Hs) as [H1 H2].
  split.
  - apply (H1 Mock.World Mock.tool_manager (Mock.tool_use "tool_1" "startups")
             (Mock.mkWorld [] [ToolReturns (PyStr Mock.marker_text)])
             (fst (fst Mock.marker_round)) (snd (fst Mock.marker_round)) [] []).
    reflexivity.
  - apply (H2 Mock.World Mock.PROMPT Mock.ai_generator "Why do startups fail?"
             None (Some Mock.mock_tools) (Some Mock.tool_manager)
             Mock.marker_world
             (fst (fst Mock.marker_run)) (snd (fst Mock.marker_run))
             (firstn 1 (snd Mock.marker_run)) (skipn 2 (snd Mock.marker_run))).
    reflexivity.
Defined.

(** The contract is needed: with a tool manager, an engine that asks for
    a tool it was not offered starts the round loop, and a second engine
    call is made. *)
Example uncontracted_engine_several_calls :
  ~ requests_tools_only_when_offered Mock.create /\
  ~ exactly_one_engine_call (snd Mock.without_tools_tool_use_run).
Proof.
  split.
  - intros H.
    apply (H Mock.without_tools_tool_use_world
             (first_request Mock.PROMPT Mock.ai_generator "What is Python?"
                None None)
             (Mock.tool_use "tool_1" "Python")
             (Mock.mkWorld
                [EngineReturns (Mock.text_response "Python is a language")]
                [ToolReturns (PyStr "Python course content found")]));
      reflexivity.
  - unfold exactly_one_engine_call. intros H. discriminate H.
Qed.

(** C7: when no tools are supplied, and the engine asks for tools only
    when tools are offered, a call of [generate_response] makes exactly
    one engine call, whether or not a tool manager is supplied; the
    request holds the user's query alone and carries neither tools nor a
    tool choice; no tool runs; and the text of the first block of the
    response, a text block, is returned unchanged. *)
Theorem without_tools_single_call_returns_text
    {W : Type} (PROMPT : string) (self : AIGenerator W) (query : string)
    (history : option string) (tools_arg : option (list ToolSchema))
    (otm : option (ToolManager W)) (w : W) res w' t :
  truthy tools_arg = false ->
  requests_tools_only_when_offered (client self) ->
  generate_response PROMPT self query history tools_arg otm w = (res, w', t) ->
  exists p1 out1,
    t = [EngineCall p1 out1] /\
    exactly_one_engine_call t /\
    tools p1 = None /\ tool_choice p1 = None /\
    messages p1 = [mkMessage user (Text query)] /\
    forall r text bs,
      out1 = EngineReturns r ->
      content r = TextBlock text :: bs ->
      res = Ok text.
Proof.
  intros Hno Hcontract G.
  destruct (generate_response_cases PROMPT self query history tools_arg otm w)
    as (p1 & out1 & w1 & Ec & Hm & Ht & Hc &
        [[E _]|(r & tm & res' & w'' & t' & -> & -> & Hstop & R & E)]);
    rewrite G in E; injection E as -> -> ->; rewrite Hno in Ht, Hc.
  - exists p1, out1.
    split; [reflexivity|]. split; [reflexivity|].
    split; [exact Ht|]. split; [exact Hc|]. split; [exact Hm|].
    intros r text bs -> Hcont. simpl. unfold first_text. now rewrite Hcont.
  - exfalso. exact (Hcontract w p1 r w1 Ht Ec Hstop).
Qed.

Lemma without_tools_single_call_returns_text_witness :
  exists p1 out1,
    snd Direct.without_tools_run = [EngineCall p1 out1] /\
    exactly_one_engine_call (snd Direct.without_tools_run) /\
    tools p1 = None /\ tool_choice p1 = None /\
    messages p1 = [mkMessage user (Text "What is Python?")] /\
    forall r text bs,
      out1 = EngineReturns r ->
      content r = TextBlock text :: bs ->
      fst (fst Direct.without_tools_run) = Ok text.
Proof.
  apply (without_tools_single_call_returns_text Mock.PROMPT Direct.ai_generator
           "What is Python?" None None (Some Mock.tool_manager) Direct.world
           (fst (fst Direct.without_tools_run)) (snd (fst Direct.without_tools_run))
           (snd Direct.without_tools_run)).
  - reflexivity.
  - intros w params r w' _ E. injection E as <- _. discriminate.
  - reflexivity.
Defined.

(** With the tool manager at hand, the text is returned as it is. *)
Example direct_without_tools_run_result :
  fst (fst Direct.without_tools_run) = Ok "This is a direct response" /\
  length (engine_requests (snd Direct.without_tools_run)) = 1.
Proof. now split. Qed.

(** The run of the test suite: one call, the text returned as it is. *)
Example without_tools_run_result :
  fst (fst Mock.without_tools_run) = Ok "This is a direct response" /\
  length (engine_requests (snd Mock.without_tools_run)) = 1.
Proof. now split. Qed.

(** C10: when no tool manager is supplied and the first response has
    [stop_reason] [tool_use], the trace is that one engine call (no tool
    runs, no other engine call is made) and the result is the value of
    [response.content[0].text]: the text of a first text block, and an
    [AttributeError] when the first block is a tool-use block. *)
Theorem tool_use_without_manager_returns_first_text
    {W : Type} (PROMPT : string) (self : AIGenerator W) (query : string)
    (history : option string) (tools_arg : option (list ToolSchema))
    (w : W) res w' p1 resp rest :
  generate_response PROMPT self query history tools_arg None w =
    (res, w', EngineCall p1 (EngineReturns resp) :: rest) ->
  stop_reason resp = "tool_use" ->
  rest = [] /\
  res = first_text resp /\
  (forall text bs, content resp = TextBlock text :: bs -> res = Ok text) /\
  (forall id name input bs,
     content resp = ToolUseBlock id name input :: bs ->
     res = Raised AttributeError).
Proof.
  intros G _.
  destruct (generate_response_cases PROMPT self query history tools_arg None w)
    as (p & out1 & w1 & _ & _ & _ & _ &
        [[E _]|(r & tm & res' & w'' & t' & _ & Habs & _)]);
    [|discriminate].
  rewrite G in E. injection E as -> _ _ <- ->.
  split; [reflexivity|]. split; [reflexivity|].
  simpl. unfold first_text.
  split; [intros text bs ->|intros id name input bs ->]; reflexivity.
Qed.

Lemma tool_use_without_manager_returns_first_text_witness :
  tl (snd Mock.without_manager_run) = [] /\
  fst (fst Mock.without_manager_run) = first_text (Mock.tool_use "tool_1" "Python") /\
  (forall text bs,
     content (Mock.tool_use "tool_1" "Python") = TextBlock text :: bs ->
     fst (fst Mock.without_manager_run) = Ok text) /\
  (forall id name input bs,
     content (Mock.tool_use "tool_1" "Python") = ToolUseBlock id name input :: bs ->
     fst (fst Mock.without_manager_run) = Raised AttributeError).
Proof.
  apply (tool_use_without_manager_returns_first_text Mock.PROMPT
           Mock.ai_generator "Tell me about Python" None (Some Mock.mock_tools)
           Mock.without_manager_world
           (fst (fst Mock.without_manager_run))
           (snd (fst Mock.without_manager_run))
           (Mock.first_params "Tell me about Python")
           (Mock.tool_use "tool_1" "Python")
           (tl (snd Mock.without_manager_run))).
  - reflexivity.
  - reflexivity.
Defined.

(** A response that is tool use only makes the call raise. *)
Example without_manager_run_raises :
  fst (fst Mock.without_manager_run) = Raised AttributeError.
Proof. reflexivity. Qed.

(** ** The claims on the filtered vector index *)

(** C8: when the catalog has no match for the course name, or the catalog
    lookup errors, [search] returns the empty result set with the error
    [No course found matching '<course_name>'] and sends no query to the
    content collection. *)
Theorem search_course_not_found
    {V D : Type} (self : VectorStore.Store V D) (query course_name : string)
    (lesson_number : option Z) (v : V) :
  fst (VectorStore.course_catalog self v course_name 1) = VectorStore.CatalogRows [] \/
  (exists msg,
     fst (VectorStore.course_catalog self v course_name 1) =
       VectorStore.CatalogRaises msg) ->
  let '(r, _, t) :=
    VectorStore.search self query (Some course_name) lesson_number v in
  VectorStore.error r =
    Some ("No course found matching '" ++ course_name ++ "'")%string /\
  VectorStore.is_empty r = true /\
  existsb VectorStore.is_content_query t = false.
Proof.
  intros H. unfold VectorStore.search, VectorStore._resolve_course_name.
  destruct (VectorStore.course_catalog self v course_name 1) as [out v'].
  simpl in H. destruct H as [->|[msg ->]]; repeat split.
Qed.

Lemma search_course_not_found_witness :
  (let '(r, _, t) :=
     VectorStore.search (VectorStore.fixed_store [] []) "x"
       (Some "NoSuchCourse") None tt in
   VectorStore.error r = Some "No course found matching 'NoSuchCourse'" /\
   VectorStore.is_empty r = true /\
   existsb VectorStore.is_content_query t = false) /\
  (let '(r, _, t) :=
     VectorStore.search VectorStore.broken_catalog_store "query"
       (Some "Nonexistent Course") (Some 3%Z) tt in
   VectorStore.error r = Some "No course found matching 'Nonexistent Course'" /\
   VectorStore.is_empty r = true /\
   existsb VectorStore.is_content_query t = false).
Proof.
  split.
  - apply (search_course_not_found (VectorStore.fixed_store [] []) "x"
             "NoSuchCourse" None tt).
    left. reflexivity.
  - apply (search_course_not_found VectorStore.broken_catalog_store "query"
             "Nonexistent Course" (Some 3%Z) tt).
    right. exists "Query error". reflexivity.
Defined.

(** A course that resolves is searched with its canonical title. *)
Example search_resolved_course :
  snd (VectorStore.search
         (VectorStore.fixed_store ["Advanced Python"]
            [("Advanced content", VectorStore.mkMetadata "Advanced Python" (Some 3%Z), 1)])
         "functions" (Some "Advanced") None tt) =
  [VectorStore.CatalogQuery "Advanced" 1;
   VectorStore.ContentQuery "functions" 5
     (Some (VectorStore.course_title_eq "Advanced Python"))].
Proof. reflexivity. Qed.

(** C9: the filter builder returns no filter without course title and
    lesson number, the equality clause on the course title with a title
    alone, the equality clause on the lesson number with a number alone,
    and the conjunction of exactly these two clauses with both. *)
Theorem build_filter_combinations (title : string) (n : Z) :
  VectorStore._build_filter None None = None /\
  VectorStore._build_filter (Some title) None =
    Some (VectorStore.course_title_eq title) /\
  VectorStore._build_filter None (Some n) =
    Some (VectorStore.lesson_number_eq n) /\
  VectorStore._build_filter (Some title) (Some n) =
    Some (VectorStore.and_
            [VectorStore.course_title_eq title; VectorStore.lesson_number_eq n]).
Proof.
  repeat split.
Qed.

(** * Further properties of the orchestrator *)

Lemma engine_calls_app (t1 t2 : list Event) :
  engine_calls (t1 ++ t2) = engine_calls t1 ++ engine_calls t2.
Proof.
  induction t1 as [|[p o|n i o] t1 IH]; simpl; [reflexivity| |assumption].
  now rewrite IH.
Qed.

Lemma tools_only_calls (t : list Event) :
  forallb is_tool_event t = true -> engine_calls t = [].
Proof.
  induction t as [|[p o|n i o] t IH]; simpl; intros H;
    [reflexivity|discriminate|auto].
Qed.

Lemma tools_only_not_raised (t : list Event) :
  forallb is_tool_event t = true -> existsb engine_raised t = false.
Proof.
  induction t as [|[p o|n i o] t IH]; simpl; intros H;
    [reflexivity|discriminate|auto].
Qed.

Lemma round_matches_tool_use bs t rs :
  round_matches bs t rs ->
  existsb is_tool_use bs = true -> truthy rs = true.
Proof.
  induction 1; simpl; intros Hb; auto.
Qed.

Lemma round_matches_failed bs t rs :
  round_matches bs t rs ->
  existsb failed_event t = true -> truthy rs = true.
Proof.
  induction 1; simpl; intros Hb; auto.
Qed.

(** The flag of a round, read off its trace. *)
Lemma existsb_failed_event_iff (t : list Event) :
  existsb failed_event t = true <->
  exists name input out,
    In (ToolCall name input out) t /\
    ((exists msg, out = ToolRaises msg) \/
     (exists s, out = ToolReturns (PyStr s) /\ contains_ci "failed" s)).
Proof.
  rewrite existsb_exists. split.
  - intros ([p o|name input out] & Hin & Hf); [discriminate|].
    exists name, input, out. split; [assumption|].
    destruct out as [[s| |]|msg]; simpl in Hf; try discriminate.
    + right. exists s. split; [reflexivity|]. now apply str_in_lower_iff.
    + left. now exists msg.
  - intros (name & input & out & Hin & [[msg ->]|(s & -> & Hs)]);
      eexists; (split; [exact Hin|]); simpl; [reflexivity|].
    now apply str_in_lower_iff.
Qed.

Section MoreRunProperties.

Context {W : Type}.
Variables (self : AIGenerator W) (bp : Request).

Lemma round_params_with_tools k msgs :
  k < MAX_ROUNDS ->
  tools (round_params self bp k msgs false) = Some (get_tools bp) /\
  tool_choice (round_params self bp k msgs false) = Some auto_choice.
Proof.
  intros Hk. unfold round_params. apply Nat.ltb_lt in Hk. rewrite Hk.
  now split.
Qed.

(** What holds of every request the loop can build holds of every request
    of a run. *)
Lemma run_all_requests (P : Request -> Prop) k msgs resp t res :
  (forall k' msgs' hf, P (round_params self bp k' msgs' hf)) ->
  loop_run self bp k msgs resp t res ->
  Forall P (engine_requests t).
Proof.
  intros HP.
  induction 1 as [k msgs resp t1 rs out Hk Hm Hs
                 |k msgs resp t1 rs r t3 res Hk Hm Hf Hu R IH];
    pose proof (round_matches_tools_only _ _ _ Hm) as Ht;
    rewrite engine_requests_app, (tools_only_requests _ Ht);
    cbn [engine_requests app]; auto.
Qed.

(** One step of a run: the first round, the engine call after it, and
    either the end of the loop or the run of the next round. *)
Lemma run_inv k msgs resp t res :
  loop_run self bp k msgs resp t res ->
  exists rs out rest,
    round_matches (content resp) (tool_prefix t) rs /\
    t = tool_prefix t ++
        EngineCall
          (round_params self bp k
             (round_messages msgs resp rs (existsb failed_event (tool_prefix t)))
             (existsb failed_event (tool_prefix t)))
          out :: rest /\
    ((stops_after k (existsb failed_event (tool_prefix t)) out = true /\
      rest = [] /\ res = outcome_of out) \/
     (exists r,
        out = EngineReturns r /\
        existsb failed_event (tool_prefix t) = false /\
        existsb is_tool_use (content r) = true /\
        k < MAX_ROUNDS /\
        loop_run self bp (k + 1) (round_messages msgs resp rs false) r rest res)).
Proof.
  destruct 1 as [k msgs resp t1 rs out Hk Hm Hs
                |k msgs resp t1 rs r t3 res Hk Hm Hf Hu R];
    pose proof (round_matches_tools_only _ _ _ Hm) as Ht;
    rewrite tool_prefix_tools_only by assumption.
  - exists rs, out, []. split; [assumption|]. split; [reflexivity|].
    left. auto.
  - exists rs, (EngineReturns r), t3. rewrite Hf.
    split; [assumption|]. split; [reflexivity|]. right. exists r. auto.
Qed.

(** A run ends with an engine call, the outcome of which is the result of
    the loop; no engine call before it raised. *)
Lemma run_last k msgs resp t res :
  loop_run self bp k msgs resp t res ->
  exists pre p out,
    t = pre ++ [EngineCall p out] /\
    existsb engine_raised pre = false /\
    res = outcome_of out.
Proof.
  induction 1 as [k msgs resp t1 rs out Hk Hm Hs
                 |k msgs resp t1 rs r t3 res Hk Hm Hf Hu R IH];
    pose proof (round_matches_tools_only _ _ _ Hm) as Ht.
  - eexists t1, _, out. split; [reflexivity|].
    split; [now apply tools_only_not_raised|reflexivity].
  - destruct IH as (pre & p & out & -> & Hpre & ->).
    eexists (t1 ++ EngineCall _ (EngineReturns r) :: pre), p, out.
    split; [now rewrite <- app_assoc|]. split; [|reflexivity].
    rewrite existsb_app, (tools_only_not_raised _ Ht). exact Hpre.
Qed.

Lemma round_messages_extends msgs resp t rs :
  round_matches (content resp) t rs ->
  round_messages msgs resp rs (existsb failed_event t) =
  msgs ++ mkMessage assistant (Blocks (content resp)) ::
    (if truthy rs then [mkMessage user (ToolResults rs)] else []).
Proof.
  intros Hm. unfold round_messages.
  destruct (existsb failed_event t) eqn:Hf; [|reflexivity].
  now rewrite (round_matches_failed _ _ _ Hm Hf).
Qed.

(** The transcripts of a run chain on from the transcript and the
    response the loop is entered with. *)
Lemma run_chained k msgs resp t res :
  loop_run self bp k msgs resp t res ->
  forall p0, messages p0 = msgs ->
  chain_from p0 (EngineReturns resp) (engine_calls t).
Proof.
  induction 1 as [k msgs resp t1 rs out Hk Hm Hs
                 |k msgs resp t1 rs r t3 res Hk Hm Hf Hu R IH];
    intros p0 Hp0;
    pose proof (round_matches_tools_only _ _ _ Hm) as Ht;
    rewrite engine_calls_app, (tools_only_calls _ Ht);
    cbn [engine_calls app chain_from].
  - split; [|exact I]. exists resp, rs. split; [reflexivity|].
    split; [now apply round_matches_ids with (t := t1)|].
    rewrite round_params_messages, Hp0.
    now apply round_messages_extends.
  - split.
    + exists resp, rs. split; [reflexivity|].
      split; [now apply round_matches_ids with (t := t1)|].
      rewrite round_params_messages, Hp0, <- Hf.
      now apply round_messages_extends.
    + apply IH. apply round_params_messages.
Qed.

End MoreRunProperties.

Section MoreGenerateProperties.

Context {W : Type}.
Variables (PROMPT : string) (self : AIGenerator W) (query : string)
  (history : option string) (tools_arg : option (list ToolSchema)).

(** [generate_response] sends [first_request], then answers from the
    response or enters the loop at round 1. *)
Lemma generate_response_first (otm : option (ToolManager W)) (w : W) p1 :
  p1 = first_request PROMPT self query history tools_arg ->
  exists out1 w1,
    client self w p1 = (out1, w1) /\
    ((generate_response PROMPT self query history tools_arg otm w =
        (finish (outcome_of out1), w1, [EngineCall p1 out1]) /\
      forall r, out1 = EngineReturns r ->
                otm = None \/ stop_reason r <> "tool_use") \/
     (exists r tm res w' t,
        out1 = EngineReturns r /\ otm = Some tm /\
        stop_reason r = "tool_use" /\
        loop_run self p1 1 (messages p1) r t res /\
        generate_response PROMPT self query history tools_arg otm w =
          (finish res, w', EngineCall p1 out1 :: t))).
Proof.
  intros Hp1.
  pose proof (eq_refl (generate_response PROMPT self query history tools_arg otm w))
    as G.
  unfold generate_response at 2 in G.
  change (bind (messages_create (client self)
                  (first_request PROMPT self query history tools_arg))
            (fun response =>
               match otm with
               | Some tm =>
                   if (stop_reason response =? "tool_use")%string && truthy tm
                   then _handle_sequential_tool_execution self response
                          (first_request PROMPT self query history tools_arg) tm
                   else content0_text response
               | None => content0_text response
               end) w =
          generate_response PROMPT self query history tools_arg otm w) in G.
  rewrite <- Hp1 in G. clear Hp1.
  destruct (client self w p1) as [out1 w1] eqn:Ec.
  exists out1, w1. split; [reflexivity|].
  unfold bind at 1, messages_create in G. rewrite Ec in G.
  destruct out1 as [r|msg].
  - destruct otm as [tm|].
    + destruct (stop_reason r =? "tool_use")%string eqn:Es;
        cbn [andb truthy Truthy_ToolManager] in G.
      * right. apply String.eqb_eq in Es.
        unfold _handle_sequential_tool_execution, bind in G.
        destruct (while_rounds_run self p1 tm (S MAX_ROUNDS) 1 (messages p1) r w1)
          as (res & w' & t & E & R); [unfold MAX_ROUNDS; lia..|].
        rewrite E in G. exists r, tm, res, w', t.
        repeat (split; [first [reflexivity|assumption]|]).
        rewrite <- G. destruct res as [r'| |]; simpl; try reflexivity.
        rewrite content0_text_run. now rewrite app_nil_r.
      * left. rewrite content0_text_run in G. split; [now rewrite <- G|].
        intros r' E. injection E as <-. right.
        now apply String.eqb_neq in Es.
    + left. rewrite content0_text_run in G. split; [now rewrite <- G|]. auto.
  - left. split; [now rewrite <- G|]. discriminate.
Qed.

Lemma first_request_messages :
  messages (first_request PROMPT self query history tools_arg) =
  [mkMessage user (Text query)].
Proof.
  unfold first_request. now destruct tools_arg as [[|s ts]|].
Qed.

Lemma first_request_get_tools :
  get_tools (first_request PROMPT self query history tools_arg) =
  match tools_arg with Some ts => ts | None => [] end.
Proof.
  unfold first_request. now destruct tools_arg as [[|s ts]|].
Qed.

End MoreGenerateProperties.

Lemma chain_from_heads (m : Message) calls :
  forall p out,
    hd_error (messages p) = Some m ->
    chain_from p out calls ->
    Forall (fun c => hd_error (messages (fst c)) = Some m) calls.
Proof.
  induction calls as [|[p' out'] calls IH]; intros p out Hp Hc;
    constructor; cbn [chain_from] in Hc; destruct Hc as [(r & rs & _ & _ & E) Hc].
  - cbn [fst]. rewrite E. destruct (messages p); [discriminate|exact Hp].
  - apply (IH p' out'); [|exact Hc].
    rewrite E. destruct (messages p); [discriminate|exact Hp].
Qed.

(** X1: every request that a call of [generate_response] sends to the
    engine carries the model of the generator, temperature 0, at most 800
    tokens, and one and the same system content: the prompt alone without
    history (or with an empty one), else the prompt, a blank line, the
    heading [Previous conversation:] and the history. *)
Theorem every_request_carries_base_params_and_system
    {W : Type} (PROMPT : string) (self : AIGenerator W) (query : string)
    (history : option string) (tools_arg : option (list ToolSchema))
    (otm : option (ToolManager W)) (w : W) :
  Forall
    (fun req =>
       model req = self_model self /\
       temperature req = 0%Z /\
       max_tokens req = 800%Z /\
       system req =
         match history with
         | Some h =>
             if truthy h
             then (PROMPT ++ nl ++ nl ++ "Previous conversation:" ++ nl ++ h)%string
             else PROMPT
         | None => PROMPT
         end)
    (engine_requests
       (snd (generate_response PROMPT self query history tools_arg otm w))).
Proof.
  set (P := fun req : Request => _).
  assert (H1 : P (first_request PROMPT self query history tools_arg)).
  { unfold P, first_request. now destruct tools_arg as [[|s ts]|]. }
  destruct (generate_response_first PROMPT self query history tools_arg otm w
              _ eq_refl)
    as (out1 & w1 & _ &
        [[E _]|(r & tm & res & w' & t & _ & _ & _ & R & E)]);
    rewrite E; cbn [snd engine_requests]; constructor; auto.
  apply run_all_requests with (2 := R).
  intros k msgs hf. destruct H1 as (_ & _ & _ & Hs).
  unfold round_params.
  destruct (negb hf && (k <? MAX_ROUNDS)%nat); unfold P; cbn; auto.
Qed.

(** X2: a request of a call carries a tool choice exactly when it carries
    tools; the tool choice is then [auto] and the tools are the list
    supplied to [generate_response], or the empty list when none was
    supplied. *)
Theorem every_request_couples_tools_and_tool_choice
    {W : Type} (PROMPT : string) (self : AIGenerator W) (query : string)
    (history : option string) (tools_arg : option (list ToolSchema))
    (otm : option (ToolManager W)) (w : W) :
  Forall
    (fun req =>
       (tools req = None /\ tool_choice req = None) \/
       (tools req = Some (match tools_arg with Some ts => ts | None => [] end) /\
        tool_choice req = Some auto_choice))
    (engine_requests
       (snd (generate_response PROMPT self query history tools_arg otm w))).
Proof.
  set (P := fun req : Request => _).
  assert (H1 : P (first_request PROMPT self query history tools_arg)).
  { unfold P, first_request. destruct tools_arg as [[|s ts]|]; cbn; auto. }
  destruct (generate_response_first PROMPT self query history tools_arg otm w
              _ eq_refl)
    as (out1 & w1 & _ &
        [[E _]|(r & tm & res & w' & t & _ & _ & _ & R & E)]);
    rewrite E; cbn [snd engine_requests]; constructor; auto.
  apply run_all_requests with (2 := R).
  intros k msgs hf. unfold round_params.
  destruct (negb hf && (k <? MAX_ROUNDS)%nat); unfold P.
  - right. cbn [set_tools tools tool_choice].
    now rewrite first_request_get_tools.
  - left. now split.
Qed.

(** X3: a round is marked as failed exactly when one of its tool
    executions raised or returned a string that contains [failed] in some
    mix of cases; a result that is not a string never marks it. *)
Theorem round_failed_iff_some_execution_failed
    {W : Type} (tm : ToolManager W) (response : Response) (w : W) r w' t :
  _execute_single_tool_round response tm w = (r, w', t) ->
  exists rs has_failures,
    r = Ok (rs, has_failures) /\
    (has_failures = true <->
     exists name input out,
       In (ToolCall name input out) t /\
       ((exists msg, out = ToolRaises msg) \/
        (exists s, out = ToolReturns (PyStr s) /\ contains_ci "failed" s))).
Proof.
  intros E.
  destruct (round_spec tm response w) as (rs & w1 & t1 & E' & _).
  rewrite E in E'. injection E' as -> _ ->.
  exists rs, (existsb failed_event t1). split; [reflexivity|].
  apply existsb_failed_event_iff.
Qed.

Lemma round_failed_iff_some_execution_failed_witness :
  exists rs has_failures,
    fst (fst Scenario.mixed_round) = Ok (rs, has_failures) /\
    (has_failures = true <->
     exists name input out,
       In (ToolCall name input out) (snd Scenario.mixed_round) /\
       ((exists msg, out = ToolRaises msg) \/
        (exists s, out = ToolReturns (PyStr s) /\ contains_ci "failed" s))).
Proof.
  apply (round_failed_iff_some_execution_failed Mock.tool_manager
           Scenario.mixed_response
           (Mock.mkWorld [] [ToolReturns PyNone; ToolReturns (PyInt 404)])
           (fst (fst Scenario.mixed_round)) (snd (fst Scenario.mixed_round))
           (snd Scenario.mixed_round)).
  reflexivity.
Defined.

(** The round over results that are not strings is not marked. *)
Example mixed_round_not_failed :
  fst (fst Scenario.mixed_round) =
  Ok ([mkToolResult "tool_a" PyNone; mkToolResult "tool_b" (PyInt 404)], false).
Proof. reflexivity. Qed.

(** X4: the trace of a call ends with an engine call, and no engine call
    before the last one raised.  If the last call raised, the call of
    [generate_response] raises the same error; if it returned a response,
    the result is the text of the first block of that response, an
    [IndexError] when the response has no block, and an [AttributeError]
    when its first block is a tool-use block. *)
Theorem result_comes_from_last_engine_call
    {W : Type} (PROMPT : string) (self : AIGenerator W) (query : string)
    (history : option string) (tools_arg : option (list ToolSchema))
    (otm : option (ToolManager W)) (w : W) res w' t :
  generate_response PROMPT self query history tools_arg otm w = (res, w', t) ->
  exists pre p out,
    t = pre ++ [EngineCall p out] /\
    existsb engine_raised pre = false /\
    match out with
    | EngineRaises msg => res = Raised (EngineError msg)
    | EngineReturns r =>
        match content r with
        | [] => res = Raised IndexError
        | TextBlock text :: _ => res = Ok text
        | ToolUseBlock _ _ _ :: _ => res = Raised AttributeError
        end
    end.
Proof.
  intros G.
  assert (Hfin : forall out,
            match out with
            | EngineRaises msg => finish (outcome_of out) = Raised (EngineError msg)
            | EngineReturns r =>
                match content r with
                | [] => finish (outcome_of out) = Raised IndexError
                | TextBlock text :: _ => finish (outcome_of out) = Ok text
                | ToolUseBlock _ _ _ :: _ =>
                    finish (outcome_of out) = Raised AttributeError
                end
            end).
  { intros [r|msg]; simpl; [|reflexivity]. unfold first_text.
    now destruct (content r) as [|[]]. }
  destruct (generate_response_first PROMPT self query history tools_arg otm w
              _ eq_refl)
    as (out1 & w1 & _ &
        [[E _]|(r & tm & res' & w'' & t' & -> & _ & _ & R & E)]);
    rewrite G in E; injection E as -> _ ->.
  - exists [], (first_request PROMPT self query history tools_arg), out1.
    split; [reflexivity|]. split; [reflexivity|]. apply Hfin.
  - destruct (run_last _ _ _ _ _ _ _ R) as (pre & p & out & -> & Hpre & ->).
    exists (EngineCall (first_request PROMPT self query history tools_arg)
              (EngineReturns r) :: pre), p, out.
    split; [reflexivity|]. split; [exact Hpre|]. apply Hfin.
Qed.

Lemma result_comes_from_last_engine_call_witness :
  exists pre p out,
    snd Scenario.engine_failure_run = pre ++ [EngineCall p out] /\
    existsb engine_raised pre = false /\
    match out with
    | EngineRaises msg =>
        fst (fst Scenario.engine_failure_run) = Raised (EngineError msg)
    | EngineReturns r =>
        match content r with
        | [] => fst (fst Scenario.engine_failure_run) = Raised IndexError
        | TextBlock text :: _ => fst (fst Scenario.engine_failure_run) = Ok text
        | ToolUseBlock _ _ _ :: _ =>
            fst (fst Scenario.engine_failure_run) = Raised AttributeError
        end
    end.
Proof.
  apply (result_comes_from_last_engine_call Mock.PROMPT Mock.ai_generator
           "Multi-step query" (Some "User: hello") (Some Mock.mock_tools)
           (Some Mock.tool_manager) Scenario.engine_failure_world
           (fst (fst Scenario.engine_failure_run))
           (snd (fst Scenario.engine_failure_run))
           (snd Scenario.engine_failure_run)).
  reflexivity.
Defined.

(** The engine error of the second call is the result. *)
Example engine_failure_run_raises :
  fst (fst Scenario.engine_failure_run) = Raised (EngineError "Connection error") /\
  length (engine_requests (snd Scenario.engine_failure_run)) = 2.
Proof. now split. Qed.

(** X5: when the loop is entered and no tool execution of round 1 fails,
    the second engine call carries tools again, the list supplied to
    [generate_response] or the empty list when none was supplied, with
    tool choice [auto]; its transcript is the query, the assistant turn
    with the content of the first response and, if the round gave
    results, one user turn with them. *)
Theorem second_call_after_clean_round_carries_tools
    {W : Type} (PROMPT : string) (self : AIGenerator W) (query : string)
    (history : option string) (tools_arg : option (list ToolSchema))
    (tm : ToolManager W) (w : W) res w' p1 r1 rest :
  generate_response PROMPT self query history tools_arg (Some tm) w =
    (res, w', EngineCall p1 (EngineReturns r1) :: rest) ->
  stop_reason r1 = "tool_use" ->
  existsb failed_event (tool_prefix rest) = false ->
  exists rs p2 out2 rest',
    rest = tool_prefix rest ++ EngineCall p2 out2 :: rest' /\
    round_matches (content r1) (tool_prefix rest) rs /\
    tools p2 = Some (match tools_arg with Some ts => ts | None => [] end) /\
    tool_choice p2 = Some auto_choice /\
    messages p2 =
      mkMessage user (Text query) :: mkMessage assistant (Blocks (content r1)) ::
        (if truthy rs then [mkMessage user (ToolResults rs)] else []).
Proof.
  intros G Hstop Hf.
  destruct (generate_response_first PROMPT self query history tools_arg (Some tm) w
              _ eq_refl)
    as (out1 & w1 & _ &
        [[E Hd]|(r & tm' & res' & w'' & t & -> & _ & _ & R & E)]);
    rewrite G in E; inversion E; subst; clear E.
  - destruct (Hd r1 eq_refl) as [Hn|Hn]; [discriminate|contradiction].
  - destruct (run_inv _ _ _ _ _ _ _ R) as (rs & out & rest' & Hm & Et & _).
    rewrite Hf in Et.
    match type of Et with _ = _ ++ EngineCall ?q _ :: _ => set (p2 := q) in * end.
    exists rs, p2, out, rest'. split; [exact Et|]. split; [exact Hm|].
    destruct (round_params_with_tools self
                (first_request PROMPT self query history tools_arg) 1
                (round_messages
                   (messages (first_request PROMPT self query history tools_arg))
                   r rs false)) as [Ht Hc]; [unfold MAX_ROUNDS; lia|].
    rewrite first_request_get_tools in Ht.
    split; [exact Ht|]. split; [exact Hc|].
    subst p2. rewrite round_params_messages. unfold round_messages.
    now rewrite first_request_messages.
Qed.

Lemma second_call_after_clean_round_carries_tools_witness :
  exists rs p2 out2 rest',
    tl (snd Mock.without_tools_tool_use_run) =
      tool_prefix (tl (snd Mock.without_tools_tool_use_run)) ++
      EngineCall p2 out2 :: rest' /\
    round_matches (content (Mock.tool_use "tool_1" "Python"))
      (tool_prefix (tl (snd Mock.without_tools_tool_use_run))) rs /\
    tools p2 = Some [] /\
    tool_choice p2 = Some auto_choice /\
    messages p2 =
      mkMessage user (Text "What is Python?") ::
      mkMessage assistant (Blocks (content (Mock.tool_use "tool_1" "Python"))) ::
        (if truthy rs then [mkMessage user (ToolResults rs)] else []).
Proof.
  apply (second_call_after_clean_round_carries_tools Mock.PROMPT
           Mock.ai_generator "What is Python?" None None Mock.tool_manager
           Mock.without_tools_tool_use_world
           (fst (fst Mock.without_tools_tool_use_run))
           (snd (fst Mock.without_tools_tool_use_run))
           (first_request Mock.PROMPT Mock.ai_generator "What is Python?" None None)
           (Mock.tool_use "tool_1" "Python")
           (tl (snd Mock.without_tools_tool_use_run))).
  - reflexivity.
  - reflexivity.
  - reflexivity.
Defined.

(** X6: the transcripts of a call chain: the first request holds the
    query alone, and every later request holds the transcript of the
    request before it, then the content of the response to that request as
    an assistant turn, then at most one user turn, the results of the
    tool-use blocks of that response.  Every transcript thus starts with
    the query, and nothing is ever removed from it. *)
Theorem transcripts_grow_by_appending
    {W : Type} (PROMPT : string) (self : AIGenerator W) (query : string)
    (history : option string) (tools_arg : option (list ToolSchema))
    (otm : option (ToolManager W)) (w : W) :
  let calls :=
    engine_calls
      (snd (generate_response PROMPT self query history tools_arg otm w)) in
  transcripts_chain calls /\
  (exists p1 out1 rest,
     calls = (p1, out1) :: rest /\ messages p1 = [mkMessage user (Text query)]) /\
  Forall (fun c => hd_error (messages (fst c)) = Some (mkMessage user (Text query)))
    calls.
Proof.
  pose proof (first_request_messages PROMPT self query history tools_arg) as Hm.
  destruct (generate_response_first PROMPT self query history tools_arg otm w
              _ eq_refl)
    as (out1 & w1 & _ &
        [[E _]|(r & tm & res & w' & t & -> & _ & _ & R & E)]);
    rewrite E; cbn [snd engine_calls transcripts_chain].
  - split; [exact I|]. split; [eauto|].
    constructor; [|constructor]. cbn [fst]. now rewrite Hm.
  - pose proof (run_chained _ _ _ _ _ _ _ R _ eq_refl) as Hc.
    split; [exact Hc|]. split; [eauto|].
    constructor; [cbn [fst]; now rewrite Hm|].
    apply chain_from_heads with (2 := Hc). now rewrite Hm.
Qed.

(** The transcripts of the run over two rounds. *)
Example max_rounds_run_chain :
  map (fun c => length (messages (fst c)))
      (engine_calls (snd Mock.max_rounds_run)) = [1; 3; 5].
Proof. reflexivity. Qed.

(** X7: when the first response stops for tool use but holds no tool-use
    block, no tool is executed and no user turn is added: the second
    engine call follows at once, with the tools, and its transcript ends
    with the assistant turn. *)
Theorem tool_use_stop_without_block_adds_no_user_turn
    {W : Type} (PROMPT : string) (self : AIGenerator W) (query : string)
    (history : option string) (tools_arg : option (list ToolSchema))
    (tm : ToolManager W) (w : W) res w' p1 r1 rest :
  generate_response PROMPT self query history tools_arg (Some tm) w =
    (res, w', EngineCall p1 (EngineReturns r1) :: rest) ->
  stop_reason r1 = "tool_use" ->
  existsb is_tool_use (content r1) = false ->
  exists p2 out2 rest',
    rest = EngineCall p2 out2 :: rest' /\
    tools p2 = Some (match tools_arg with Some ts => ts | None => [] end) /\
    tool_choice p2 = Some auto_choice /\
    messages p2 =
      [mkMessage user (Text query); mkMessage assistant (Blocks (content r1))].
Proof.
  intros G Hstop Hno.
  destruct (generate_response_first PROMPT self query history tools_arg (Some tm) w
              _ eq_refl)
    as (out1 & w1 & _ &
        [[E Hd]|(r & tm' & res' & w'' & t & -> & _ & _ & R & E)]);
    rewrite G in E; inversion E; subst; clear E.
  - destruct (Hd r1 eq_refl) as [Hn|Hn]; [discriminate|contradiction].
  - destruct (run_inv _ _ _ _ _ _ _ R) as (rs & out & rest' & Hm & Et & _).
    destruct (round_matches_no_tool_use _ _ _ Hm Hno) as [Hpre ->].
    rewrite Hpre in Et. cbn [app existsb] in Et.
    match type of Et with _ = EngineCall ?q _ :: _ => set (p2 := q) in * end.
    exists p2, out, rest'. split; [exact Et|].
    destruct (round_params_with_tools self
                (first_request PROMPT self query history tools_arg) 1
                (round_messages
                   (messages (first_request PROMPT self query history tools_arg))
                   r [] false)) as [Ht Hc]; [unfold MAX_ROUNDS; lia|].
    rewrite first_request_get_tools in Ht.
    split; [exact Ht|]. split; [exact Hc|].
    subst p2. rewrite round_params_messages. unfold round_messages.
    now rewrite first_request_messages.
Qed.

Lemma tool_use_stop_without_block_adds_no_user_turn_witness :
  exists p2 out2 rest',
    tl (snd Scenario.text_only_run) = EngineCall p2 out2 :: rest' /\
    tools p2 = Some Mock.mock_tools /\
    tool_choice p2 = Some auto_choice /\
    messages p2 =
      [mkMessage user (Text "What is Python?");
       mkMessage assistant (Blocks (content Scenario.text_only_tool_use))].
Proof.
  apply (tool_use_stop_without_block_adds_no_user_turn Mock.PROMPT
           Mock.ai_generator "What is Python?" None (Some Mock.mock_tools)
           Mock.tool_manager Scenario.text_only_world
           (fst (fst Scenario.text_only_run)) (snd (fst Scenario.text_only_run))
           (Mock.first_params "What is Python?")
           Scenario.text_only_tool_use
           (tl (snd Scenario.text_only_run))).
  - reflexivity.
  - reflexivity.
  - reflexivity.
Defined.

(** The loop entered by [generate_response], read off a trace with two
    engine calls at least. *)
Lemma second_call_in_run {W : Type} (self : AIGenerator W) (bp : Request)
    msgs r1 t1 p2 out2 rest res :
  loop_run self bp 1 msgs r1 (t1 ++ EngineCall p2 out2 :: rest) res ->
  forallb is_tool_event t1 = true ->
  exists rs,
    round_matches (content r1) t1 rs /\
    p2 = round_params self bp 1
           (round_messages msgs r1 rs (existsb failed_event t1))
           (existsb failed_event t1) /\
    ((stops_after 1 (existsb failed_event t1) out2 = true /\
      rest = [] /\ res = outcome_of out2) \/
     (exists r2,
        out2 = EngineReturns r2 /\
        existsb failed_event t1 = false /\
        existsb is_tool_use (content r2) = true /\
        loop_run self bp 2 (round_messages msgs r1 rs false) r2 rest res)).
Proof.
  intros R Ht.
  destruct (run_inv _ _ _ _ _ _ _ R) as (rs & out & rest0 & Hm & Et & Hnext).
  rewrite tool_prefix_tools_only in * by assumption.
  apply app_inv_head in Et. injection Et as -> -> ->.
  exists rs. split; [exact Hm|]. split; [reflexivity|].
  destruct Hnext as [H|(r2 & -> & Hf & Hu & _ & R2)]; [now left|].
  right. exists r2. auto.
Qed.

(** X8: when round 1 is free of failures and the second response holds a
    tool-use block, round 2 is run on that response, and one last engine
    call follows, without tools and without tool choice; its transcript is
    that of the second call followed by the assistant turn and one user
    turn with the results of round 2, and its outcome decides the
    result. *)
Theorem second_round_then_final_call
    {W : Type} (PROMPT : string) (self : AIGenerator W) (query : string)
    (history : option string) (tools_arg : option (list ToolSchema))
    (otm : option (ToolManager W)) (w : W) res w' p1 r1 t1 p2 r2 rest :
  generate_response PROMPT self query history tools_arg otm w =
    (res, w',
     EngineCall p1 (EngineReturns r1) :: t1 ++
     EngineCall p2 (EngineReturns r2) :: rest) ->
  forallb is_tool_event t1 = true ->
  existsb failed_event t1 = false ->
  existsb is_tool_use (content r2) = true ->
  exists rs2 p3 out3,
    rest = tool_prefix rest ++ [EngineCall p3 out3] /\
    round_matches (content r2) (tool_prefix rest) rs2 /\
    tools p3 = None /\ tool_choice p3 = None /\
    messages p3 =
      messages p2 ++ [mkMessage assistant (Blocks (content r2));
                      mkMessage user (ToolResults rs2)] /\
    res = finish (outcome_of out3).
Proof.
  intros G Ht Hf Hu.
  destruct (generate_response_first PROMPT self query history tools_arg otm w
              _ eq_refl)
    as (out1 & w1 & _ &
        [[E _]|(r & tm & res' & w'' & t & -> & _ & _ & R & E)]);
    rewrite G in E; inversion E; subst; clear E.
  - destruct t1; discriminate.
  - destruct (second_call_in_run _ _ _ _ _ _ _ _ _ R Ht)
      as (rs & Hm & Hp2 & [(Hs & _)|(r2' & E2 & _ & _ & R2)]).
    + rewrite Hf in Hs. cbn [stops_after orb] in Hs. rewrite Hu in Hs.
      discriminate.
    + injection E2 as <-.
      destruct (run_inv _ _ _ _ _ _ _ R2)
        as (rs2 & out3 & rest3 & Hm2 & Et & [(_ & -> & ->)|(r3 & _ & _ & _ & Hk & _)]);
        [|unfold MAX_ROUNDS in Hk; lia].
      match type of Et with _ = _ ++ [EngineCall ?q _] => set (p3 := q) in * end.
      exists rs2, p3, out3. split; [exact Et|]. split; [exact Hm2|].
      assert (Hn : tools p3 = None /\ tool_choice p3 = None).
      { subst p3. apply round_params_no_tools. right. unfold MAX_ROUNDS. lia. }
      destruct Hn as [Hn1 Hn2].
      split; [exact Hn1|]. split; [exact Hn2|]. split; [|reflexivity].
      subst p3. rewrite round_params_messages.
      rewrite Hp2, round_params_messages, Hf.
      unfold round_messages at 1.
      rewrite (round_matches_tool_use _ _ _ Hm2 Hu), orb_true_r. reflexivity.
Qed.

Lemma second_round_then_final_call_witness :
  exists rs2 p3 out3,
    skipn 3 (snd Mock.max_rounds_run) =
      tool_prefix (skipn 3 (snd Mock.max_rounds_run)) ++ [EngineCall p3 out3] /\
    round_matches (content (Mock.tool_use "tool_2" "test2"))
      (tool_prefix (skipn 3 (snd Mock.max_rounds_run))) rs2 /\
    tools p3 = None /\ tool_choice p3 = None /\
    messages p3 =
      messages
        (set_tools
           (base_params_with Mock.ai_generator
              [mkMessage user (Text "Multi-step query");
               mkMessage assistant
                 (Blocks (content (Mock.tool_use "tool_1" "test1")));
               mkMessage user
                 (ToolResults [mkToolResult "tool_1" (PyStr "Result 1")])]
              Mock.PROMPT)
           Mock.mock_tools) ++
      [mkMessage assistant (Blocks (content (Mock.tool_use "tool_2" "test2")));
       mkMessage user (ToolResults rs2)] /\
    fst (fst Mock.max_rounds_run) = finish (outcome_of out3).
Proof.
  apply (second_round_then_final_call Mock.PROMPT Mock.ai_generator
           "Multi-step query" None (Some Mock.mock_tools)
           (Some Mock.tool_manager) Mock.max_rounds_world
           (fst (fst Mock.max_rounds_run)) (snd (fst Mock.max_rounds_run))
           (Mock.first_params "Multi-step query")
           (Mock.tool_use "tool_1" "test1")
           [ToolCall "search_course_content" [("query", PyStr "test1")]
              (ToolReturns (PyStr "Result 1"))]).
  - reflexivity.
  - reflexivity.
  - reflexivity.
  - reflexivity.
Defined.

(** X9: a response to the second engine call that holds no tool-use block
    ends the call, whether round 1 failed or not: no tool runs after it,
    no third engine call is made, and the result is the text of its first
    block. *)
Theorem second_response_without_tool_use_is_final
    {W : Type} (PROMPT : string) (self : AIGenerator W) (query : string)
    (history : option string) (tools_arg : option (list ToolSchema))
    (otm : option (ToolManager W)) (w : W) res w' p1 r1 t1 p2 r2 rest :
  generate_response PROMPT self query history tools_arg otm w =
    (res, w',
     EngineCall p1 (EngineReturns r1) :: t1 ++
     EngineCall p2 (EngineReturns r2) :: rest) ->
  forallb is_tool_event t1 = true ->
  existsb is_tool_use (content r2) = false ->
  rest = [] /\
  res = first_text r2 /\
  (forall text bs, content r2 = TextBlock text :: bs -> res = Ok text).
Proof.
  intros G Ht Hu.
  assert (Htext : forall text bs,
            content r2 = TextBlock text :: bs -> first_text r2 = Ok text).
  { intros text bs Hc. unfold first_text. now rewrite Hc. }
  destruct (generate_response_first PROMPT self query history tools_arg otm w
              _ eq_refl)
    as (out1 & w1 & _ &
        [[E _]|(r & tm & res' & w'' & t & -> & _ & _ & R & E)]);
    rewrite G in E; inversion E; subst; clear E.
  - destruct t1; discriminate.
  - destruct (second_call_in_run _ _ _ _ _ _ _ _ _ R Ht)
      as (rs & Hm & Hp2 & [(_ & -> & ->)|(r2' & E2 & _ & Hu' & _)]).
    + split; [reflexivity|]. split; [reflexivity|]. exact Htext.
    + injection E2 as <-. congruence.
Qed.

Lemma second_response_without_tool_use_is_final_witness :
  skipn 3 (snd Scenario.single_tool_run) = [] /\
  fst (fst Scenario.single_tool_run) =
    first_text (Mock.text_response "Python is a programming language...") /\
  (forall text bs,
     content (Mock.text_response "Python is a programming language...") =
       TextBlock text :: bs ->
     fst (fst Scenario.single_tool_run) = Ok text).
Proof.
  apply (second_response_without_tool_use_is_final Mock.PROMPT Mock.ai_generator
           "Tell me about Python" None (Some Mock.mock_tools)
           (Some Mock.tool_manager) Scenario.single_tool_world
           (fst (fst Scenario.single_tool_run))
           (snd (fst Scenario.single_tool_run))
           (Mock.first_params "Tell me about Python")
           (Mock.tool_use "tool_123" "Python basics")
           [ToolCall "search_course_content" [("query", PyStr "Python basics")]
              (ToolReturns (PyStr "Python course content found"))]
           (set_tools
              (base_params_with Mock.ai_generator
                 [mkMessage user (Text "Tell me about Python");
                  mkMessage assistant
                    (Blocks (content (Mock.tool_use "tool_123" "Python basics")));
                  mkMessage user
                    (ToolResults
                       [mkToolResult "tool_123"
                          (PyStr "Python course content found")])]
                 Mock.PROMPT)
              Mock.mock_tools)).
  - reflexivity.
  - reflexivity.
  - reflexivity.
Defined.

(** The run of the test suite: two engine calls, the second with the
    tools, and the text of the second response as the result. *)
Example single_tool_run_result :
  fst (fst Scenario.single_tool_run) = Ok "Python is a programming language..." /\
  map tools (engine_requests (snd Scenario.single_tool_run)) =
    [Some Mock.mock_tools; Some Mock.mock_tools].
Proof. now split. Qed.

(** * The rounds in the transcript *)

Lemma round_matches_truthy bs t rs :
  round_matches bs t rs -> truthy rs = existsb is_tool_use bs.
Proof.
  induction 1; simpl; auto.
Qed.

Lemma round_matches_failed_tool_use bs t rs :
  round_matches bs t rs ->
  existsb failed_event t = true -> existsb is_tool_use bs = true.
Proof.
  induction 1; simpl; intros Hf; auto.
Qed.

(** The transcript after a round, by the blocks of the response. *)
Lemma round_messages_by_blocks msgs resp t rs :
  round_matches (content resp) t rs ->
  round_messages msgs resp rs (existsb failed_event t) =
  msgs ++ mkMessage assistant (Blocks (content resp)) ::
    (if existsb is_tool_use (content resp)
     then [mkMessage user (ToolResults rs)] else []).
Proof.
  intros Hm. unfold round_messages.
  rewrite (round_matches_truthy _ _ _ Hm).
  destruct (existsb failed_event t) eqn:Hf; [|reflexivity].
  now rewrite (round_matches_failed_tool_use _ _ _ Hm Hf).
Qed.

(** Two traces that start with tool executions up to an engine call agree
    on the executions, on the call and on what follows. *)
Lemma tools_then_call_inj (t1 t2 r1 r2 : list Event) p1 o1 p2 o2 :
  forallb is_tool_event t1 = true ->
  forallb is_tool_event t2 = true ->
  t1 ++ EngineCall p1 o1 :: r1 = t2 ++ EngineCall p2 o2 :: r2 ->
  t1 = t2 /\ p1 = p2 /\ o1 = o2 /\ r1 = r2.
Proof.
  intros H1 H2 E.
  assert (Et : t1 = t2).
  { rewrite <- (tool_prefix_tools_only t1 r1 p1 o1 H1), E.
    now apply tool_prefix_tools_only. }
  subst t2. apply app_inv_head in E. injection E as -> -> ->. auto.
Qed.

(** An engine call inside a trace [t1 ++ EngineCall q o :: t3] whose part
    [t1] holds tool executions only is that call or lies in [t3]. *)
Lemma split_at_engine_call (t1 t3 pre post : list Event) q o p out :
  forallb is_tool_event t1 = true ->
  pre ++ EngineCall p out :: post = t1 ++ EngineCall q o :: t3 ->
  (pre = t1 /\ p = q /\ out = o /\ post = t3) \/
  (exists pre', pre = t1 ++ EngineCall q o :: pre' /\
                t3 = pre' ++ EngineCall p out :: post).
Proof.
  revert pre; induction t1 as [|e t1 IH]; intros pre H1 E.
  - destruct pre as [|e' pre]; simpl in E.
    + injection E as -> -> ->. left. auto.
    + injection E as -> E. right. now exists pre.
  - simpl in H1. apply andb_true_iff in H1 as [He H1].
    destruct pre as [|e' pre]; simpl in E; injection E as E0 E.
    + subst e. discriminate.
    + subst e'. destruct (IH pre H1 E) as [(-> & -> & -> & ->)|(pre' & -> & ->)].
      * left. auto.
      * right. now exists pre'.
Qed.

Section RoundsAppended.

Context {W : Type}.
Variables (self : AIGenerator W) (bp : Request).

(** Between two engine calls that follow each other lies the round on the
    response to the first, and the second is sent the transcript of the
    first extended by that round. *)
Lemma run_rounds_appended k msgs resp t res :
  loop_run self bp k msgs resp t res ->
  forall p0, messages p0 = msgs ->
  forall pre p out t1 p' out' post,
    EngineCall p0 (EngineReturns resp) :: t =
      pre ++ EngineCall p out :: t1 ++ EngineCall p' out' :: post ->
    forallb is_tool_event t1 = true ->
    exists r rs,
      out = EngineReturns r /\
      round_matches (content r) t1 rs /\
      messages p' =
        messages p ++ mkMessage assistant (Blocks (content r)) ::
          (if existsb is_tool_use (content r)
           then [mkMessage user (ToolResults rs)] else []).
Proof.
  induction 1 as [k msgs resp t1s rs out0 Hk Hm Hs
                 |k msgs resp t1s rs r2 t3 res Hk Hm Hf Hu R IH];
    intros p0 Hp0 pre p out t1 p' out' post E Ht1;
    pose proof (round_matches_tools_only _ _ _ Hm) as Hts;
    destruct pre as [|e pre]; cbn [app] in E.
  - injection E as <- <- E.
    apply tools_then_call_inj in E as (<- & <- & <- & <-); [|assumption..].
    exists resp, rs. split; [reflexivity|]. split; [exact Hm|].
    rewrite round_params_messages, Hp0.
    now apply round_messages_by_blocks.
  - injection E as <- E. symmetry in E.
    apply split_at_engine_call in E
      as [(_ & _ & _ & E)|(pre' & _ & E)]; [| |assumption].
    + destruct t1; discriminate.
    + destruct pre'; discriminate.
  - injection E as <- <- E.
    apply tools_then_call_inj in E as (<- & <- & <- & <-); [|assumption..].
    exists resp, rs. split; [reflexivity|]. split; [exact Hm|].
    rewrite round_params_messages, Hp0, <- Hf.
    now apply round_messages_by_blocks.
  - injection E as <- E. symmetry in E.
    apply split_at_engine_call in E
      as [(-> & -> & -> & E)|(pre' & -> & E)]; [| |assumption].
    + apply (IH _ (round_params_messages self bp k _ false)
                [] _ _ t1 p' out' post);
        [now rewrite <- E|assumption].
    + apply (IH _ (round_params_messages self bp k _ false)
                (EngineCall
                   (round_params self bp k (round_messages msgs resp rs false) false)
                   (EngineReturns r2) :: pre') _ _ t1 p' out' post);
        [now rewrite E|assumption].
Qed.

End RoundsAppended.

(** C3: a round never raises and answers the tool-use blocks of its
    response one for one: one execution and one result per block, in the
    order of the blocks, each result under the identifier of its block,
    whether or not executions fail.  In a call of [generate_response] with
    a tool manager, a first response that stops for tool use is followed
    by its round and a second engine call; and after a round 1 free of
    failures, a second response that holds a tool-use block is followed by
    its round and a last engine call.  Between two engine calls that
    follow each other lies exactly the round on the response to the first
    call, and the transcript sent with the second call is the transcript
    of the first, then the assistant turn with the content of that
    response, then, when the response holds a tool-use block, a single
    user turn with exactly the results of that round.  Every transcript
    sent to the engine is therefore paired: an assistant turn with
    tool-use blocks is followed at once by one user turn that holds their
    results. *)
Theorem tool_results_paired_with_tool_uses
    {W : Type} (PROMPT : string) (self : AIGenerator W) (query : string)
    (history : option string) (tools_arg : option (list ToolSchema))
    (otm : option (ToolManager W)) (w : W)
    (response : Response) (tm : ToolManager W) (w0 : W) :
  (exists rs has_failures w1 t,
     _execute_single_tool_round response tm w0 = (Ok (rs, has_failures), w1, t) /\
     round_matches (content response) t rs /\
     map tool_use_id rs = tool_use_ids (content response) /\
     length t = length rs) /\
  (forall tm' p1 r1 rest,
     otm = Some tm' ->
     snd (generate_response PROMPT self query history tools_arg otm w) =
       EngineCall p1 (EngineReturns r1) :: rest ->
     stop_reason r1 = "tool_use" ->
     exists t1 p2 out2 post,
       rest = t1 ++ EngineCall p2 out2 :: post /\
       forallb is_tool_event t1 = true) /\
  (forall p1 r1 t1 p2 r2 rest,
     snd (generate_response PROMPT self query history tools_arg otm w) =
       EngineCall p1 (EngineReturns r1) :: t1 ++
       EngineCall p2 (EngineReturns r2) :: rest ->
     forallb is_tool_event t1 = true ->
     existsb failed_event t1 = false ->
     existsb is_tool_use (content r2) = true ->
     exists t2 p3 out3,
       rest = t2 ++ [EngineCall p3 out3] /\
       forallb is_tool_event t2 = true) /\
  (forall pre p out t1 p' out' post,
     snd (generate_response PROMPT self query history tools_arg otm w) =
       pre ++ EngineCall p out :: t1 ++ EngineCall p' out' :: post ->
     forallb is_tool_event t1 = true ->
     exists r rs,
       out = EngineReturns r /\
       round_matches (content r) t1 rs /\
       map tool_use_id rs = tool_use_ids (content r) /\
       messages p' =
         messages p ++ mkMessage assistant (Blocks (content r)) ::
           (if existsb is_tool_use (content r)
            then [mkMessage user (ToolResults rs)] else [])) /\
  Forall (fun req => well_paired (messages req))
    (engine_requests
       (snd (generate_response PROMPT self query history tools_arg otm w))).
Proof.
  split; [|split; [|split; [|split]]].
  - destruct (round_spec tm response w0) as (rs & w1 & t & E & Hm).
    exists rs, (existsb failed_event t), w1, t.
    split; [exact E|]. split; [exact Hm|].
    split; [now apply round_matches_ids with (t := t)|].
    clear E. induction Hm; simpl; congruence.
  - intros tm' p1' r1 rest -> Et Hstop.
    destruct (generate_response_cases PROMPT self query history tools_arg
                (Some tm') w)
      as (p1 & out1 & w1 & _ & _ & _ & _ &
          [[E Hd]|(r & tm0 & res' & w'' & t' & -> & _ & _ & R & E)]);
      rewrite E in Et; cbn [snd] in Et; inversion Et; subst; clear Et.
    + destruct (Hd r1 eq_refl) as [Hn|Hn]; [discriminate|contradiction].
    + destruct (run_inv _ _ _ _ _ _ _ R) as (rs & out & rest' & Hm & Et & _).
      eexists (tool_prefix rest), _, out, rest'. split; [exact Et|].
      now apply round_matches_tools_only with (1 := Hm).
  - intros p1' r1 t1 p2 r2 rest Et Ht1 Hf Hu.
    destruct (generate_response_cases PROMPT self query history tools_arg otm w)
      as (p1 & out1 & w1 & _ & _ & _ & _ &
          [[E _]|(r & tm0 & res' & w'' & t' & -> & _ & _ & R & E)]);
      rewrite E in Et; cbn [snd] in Et; inversion Et; subst; clear Et.
    + destruct t1; discriminate.
    + destruct (second_call_in_run _ _ _ _ _ _ _ _ _ R Ht1)
        as (rs & Hm & Hp2 & [(Hs & _)|(r2' & E2 & _ & _ & R2)]).
      * rewrite Hf in Hs. cbn [stops_after orb] in Hs. rewrite Hu in Hs.
        discriminate.
      * destruct (run_inv _ _ _ _ _ _ _ R2)
          as (rs2 & out3 & rest3 & Hm2 & Et
              & [(_ & -> & _)|(r3 & _ & _ & _ & Hk & _)]);
          [|unfold MAX_ROUNDS in Hk; lia].
        eexists (tool_prefix rest), _, out3. split; [exact Et|].
        now apply round_matches_tools_only with (1 := Hm2).
  - intros pre p out t1 p' out' post Et Ht1.
    destruct (generate_response_cases PROMPT self query history tools_arg otm w)
      as (p1 & out1 & w1 & _ & _ & _ & _ &
          [[E _]|(r & tm' & res' & w'' & t' & -> & _ & _ & R & E)]);
      rewrite E in Et; cbn [snd] in Et.
    + destruct pre as [|e [|e' pre]]; try discriminate.
      injection Et as _ Et. destruct t1; discriminate.
    + destruct (run_rounds_appended _ _ _ _ _ _ _ R p1 eq_refl
                  pre p out t1 p' out' post Et Ht1) as (r0 & rs & -> & Hm & Hmsgs).
      exists r0, rs. split; [reflexivity|]. split; [exact Hm|].
      split; [now apply round_matches_ids with (t := t1)|exact Hmsgs].
  - destruct (generate_response_cases PROMPT self query history tools_arg otm w)
      as (p1 & out1 & w1 & _ & Hmsgs & _ & _ &
          [[E _]|(r & tm' & res' & w'' & t' & -> & -> & _ & R & E)]);
      rewrite E; cbn [snd engine_requests];
      assert (Hp : well_paired (messages p1))
        by (rewrite Hmsgs; repeat constructor).
    + now repeat constructor.
    + constructor; [assumption|].
      now apply run_paired with (1 := R).
Qed.

(** The round of a failing tool is run and appended
    ([test_generate_response_tool_failure_termination]). *)
Lemma tool_results_paired_with_tool_uses_witness :
  (exists t1 p2 out2 post,
     tl (snd Mock.tool_failure_run) = t1 ++ EngineCall p2 out2 :: post /\
     forallb is_tool_event t1 = true) /\
  (exists r rs,
     EngineReturns (Mock.tool_use "tool_123" "test") = EngineReturns r /\
     round_matches (content r)
       [ToolCall "search_course_content" [("query", PyStr "test")]
          (ToolRaises "Database connection failed")] rs /\
     map tool_use_id rs = tool_use_ids (content r) /\
     messages
       (base_params_with Mock.ai_generator
          [mkMessage user (Text "Search for content");
           mkMessage assistant (Blocks (content (Mock.tool_use "tool_123" "test")));
           mkMessage user
             (ToolResults
                [mkToolResult "tool_123"
                   (PyStr "Tool execution failed: Database connection failed")])]
          Mock.PROMPT) =
       messages (Mock.first_params "Search for content") ++
       mkMessage assistant (Blocks (content r)) ::
         (if existsb is_tool_use (content r)
          then [mkMessage user (ToolResults rs)] else [])).
Proof.
  destruct (tool_results_paired_with_tool_uses Mock.PROMPT Mock.ai_generator
              "Search for content" None (Some Mock.mock_tools)
              (Some Mock.tool_manager) Mock.tool_failure_world
              (Mock.tool_use "tool_123" "test") Mock.tool_manager
              Mock.tool_failure_world) as (_ & H1 & _ & H & _).
  split.
  - apply (H1 Mock.tool_manager (Mock.first_params "Search for content")
              (Mock.tool_use "tool_123" "test") (tl (snd Mock.tool_failure_run)));
      reflexivity.
  - apply (H [] (Mock.first_params "Search for content")
             (EngineReturns (Mock.tool_use "tool_123" "test"))
             [ToolCall "search_course_content" [("query", PyStr "test")]
                (ToolRaises "Database connection failed")]
             _
             (EngineReturns
                (Mock.text_response "I encountered an error with the search..."))
             []).
    + reflexivity.
    + reflexivity.
Defined.
